(** * gemini-to-openai-proxy: the format converter and the request handlers

    A shallow embedding of [pkg/openai/types.go], [pkg/openai/gemini.go] and
    of the two handlers of [main.go] (the revision with the credential pool
    and the Prometheus metrics), followed by the properties of the
    specification that concern them.

    Conventions.
    - A Go [int] or [int32] is a [Z]; where the source can wrap around, the
      wrap is written out ([int32_wrap]).
    - A Go pointer that the source dereferences without a nil test is
      modelled by the value it points to: the handlers only pass on what the
      SDK returned together with a nil error.
    - A Go [(value, error)] return is a [result]; a run-time panic is the
      [Panics] case of [outcome].
    - An [error] is its message: the source builds every error of its own
      with [errors.New] or [errors.Errorf] and never inspects one. *)

From Stdlib Require Import ZArith Floats.PrimFloat.
From stdpp Require Import base tactics option list list_numbers strings.
From Stdlib Require Import Ascii.

Local Open Scope Z_scope.
Local Open Scope string_scope.

(** ** Go values *)

(** What [encoding/json] stores into an [interface{}]: nil for JSON null (and
    for an absent field, which leaves the zero value), [bool], [float64],
    [string], [[]interface{}] and [map[string]interface{}]. *)
#[warnings="-register-all"]
Inductive any : Type :=
| Nil
| Bool (b : bool)
| Float64 (f : float)
| String (s : string)
| Slice (v : list any)
| Map (kv : list (string * any)).

(** The verb [%T] of package [fmt]: the dynamic type of the operand. *)
Definition typeName (v : any) : string :=
  match v with
  | Nil => "<nil>"
  | Bool _ => "bool"
  | Float64 _ => "float64"
  | String _ => "string"
  | Slice _ => "[]interface {}"
  | Map _ => "map[string]interface {}"
  end.

(** The comma-ok assertion [t, ok := text.(string)]: on failure [t] is the
    zero value of the asserted type. *)
Definition assert_string (text : any) : string * bool :=
  match text with
  | String t => (t, true)
  | _ => ("", false)
  end.

(** The comma-ok form of [v.([]interface{})]. *)
Definition assert_slice (v : any) : list any * bool :=
  match v with
  | Slice l => (l, true)
  | _ => ([], false)
  end.

Definition error : Type := string.

Inductive result (A : Type) : Type :=
| Ok (a : A)
| Err (e : error).
Arguments Ok {A} a.
Arguments Err {A} e.

Inductive outcome (A : Type) : Type :=
| Returns (a : A)
| Panics (msg : string).
Arguments Returns {A} a.
Arguments Panics {A} msg.

(** [float32]: the converter and the handlers copy these values and the JSON
    encoder tests them for NaN and the infinities; a binary64 carries every
    binary32 value. *)
Definition float32 : Type := float.

(** ** The part of the Gemini SDK the proxy calls

    [github.com/google/generative-ai-go/genai] is an external collaborator:
    these are its types as far as the proxy reads or builds them. *)
Module genai.

Inductive Part : Type :=
| Text (s : string).

Record Client : Type := { APIKey : string }.

Record EmbeddingModel : Type :=
  { c : Client;
    name : string }.

(** A batch is the list of the contents added so far, each content being
    the parts of one [AddContent] call. *)
Record EmbeddingBatch : Type :=
  { batchModel : string;
    req : list (list Part) }.

Definition NewBatch (m : EmbeddingModel) : EmbeddingBatch :=
  {| batchModel := name m; req := [] |}.

Definition AddContent (b : EmbeddingBatch) (parts : list Part) : EmbeddingBatch :=
  {| batchModel := batchModel b; req := req b ++ [parts] |}.

Record ContentEmbedding : Type := { Values : list float32 }.

Record BatchEmbedContentsResponse : Type :=
  { Embeddings : list ContentEmbedding }.

Record ModelInfo : Type :=
  { Name : string;
    SupportedGenerationMethods : list string }.

Definition EmbeddingModelOf (cl : Client) (n : string) : EmbeddingModel :=
  {| c := cl; name := n |}.

End genai.

(** ** pkg/openai/types.go *)
Module openai.

Module EmbedRequest.
Record t : Type :=
  { Input : any;
    Model : string;
    EncodingFormat : string;
    Dimensions : Z;
    User : string }.
End EmbedRequest.

Module EmbedResponseData.
Record t : Type :=
  { Object : string;
    Embedding : list float32;
    Index : Z }.
End EmbedResponseData.

Module Usage.
Record t : Type :=
  { PromptTokens : Z;
    TotalTokens : Z }.
End Usage.

Module EmbedResponse.
Record t : Type :=
  { Object : string;
    Data : list EmbedResponseData.t;
    Model : string;
    Usage : Usage.t }.
End EmbedResponse.

Module ModelResponseData.
Record t : Type :=
  { Object : string;
    ID : string;
    Created : Z;
    OwnedBy : string }.
End ModelResponseData.

Module ModelResponse.
Record t : Type :=
  { Object : string;
    Data : list ModelResponseData.t }.
End ModelResponse.

(** ** pkg/openai/gemini.go *)

Definition errUnsupportedFormat : error := "unsupported encoding format".

(** [errors.Errorf("unsupported input type: %T", x)]. *)
Definition errUnsupportedInputType (x : any) : error :=
  "unsupported input type: " ++ typeName x.

(** The guard of the first statement of [ConvertOpenAIRequestToGemini]. *)
Definition formatRejected (openAIReq : EmbedRequest.t) : bool :=
  negb (String.eqb (EmbedRequest.EncodingFormat openAIReq) "")
  && negb (String.eqb (EmbedRequest.EncodingFormat openAIReq) "float").

(** The [for _, text := range v] loop of the [[]interface{}] case. In the
    else branch the source formats [t], the string left by the failed
    assertion, and not [text]. *)
Fixpoint rangeTexts (geminiBatchReq : genai.EmbeddingBatch) (v : list any)
  : result genai.EmbeddingBatch :=
  match v with
  | [] => Ok geminiBatchReq
  | text :: rest =>
      let '(t, ok) := assert_string text in
      if ok
      then rangeTexts (genai.AddContent geminiBatchReq [genai.Text t]) rest
      else Err (errUnsupportedInputType (String t))
  end.

Definition ConvertOpenAIRequestToGemini
    (openAIReq : EmbedRequest.t) (model : genai.EmbeddingModel)
  : result genai.EmbeddingBatch :=
  if formatRejected openAIReq then Err errUnsupportedFormat
  else
    let geminiBatchReq := genai.NewBatch model in
    match EmbedRequest.Input openAIReq with
    | String v => Ok (genai.AddContent geminiBatchReq [genai.Text v])
    | Slice v => rangeTexts geminiBatchReq v
    | v => Err (errUnsupportedInputType v)
    end.

(** The [for i, geminiResp := range geminiBatchResp.Embeddings] loop:
    [i] is the index of the iteration, [data] is [openAIResp.Data]. *)
Fixpoint rangeEmbeddings (i : Z) (embeddings : list genai.ContentEmbedding)
    (data : list EmbedResponseData.t) : list EmbedResponseData.t :=
  match embeddings with
  | [] => data
  | geminiResp :: rest =>
      rangeEmbeddings (i + 1) rest
        (data ++ [ {| EmbedResponseData.Object := "embedding";
                      EmbedResponseData.Embedding := genai.Values geminiResp;
                      EmbedResponseData.Index := i |} ])
  end.

Definition ConvertGeminiResponseToOpenAI
    (geminiBatchResp : genai.BatchEmbedContentsResponse) (model : string)
  : EmbedResponse.t :=
  {| EmbedResponse.Object := "list";
     EmbedResponse.Data := rangeEmbeddings 0 (genai.Embeddings geminiBatchResp) [];
     EmbedResponse.Model := model;
     EmbedResponse.Usage := {| Usage.PromptTokens := 0; Usage.TotalTokens := 0 |} |}.

End openai.

(** ** main.go *)
Module main.

(** *** The inbound request and the recorded response *)

(** [io.ReadAll(r.Body)] followed by [json.Unmarshal(body, &openAIReq)]:
    the read fails, the decoding fails, or the request structure is filled. *)
Inductive body : Type :=
| Unreadable
| Malformed
| Decoded (openAIReq : openai.EmbedRequest.t).

Record Request : Type :=
  { Method : string;
    Path : string;
    Body : body }.

Inductive payload : Type :=
| NoBody
| ErrorText (msg : string)
| EmbedJSON (v : openai.EmbedResponse.t)
| ModelsJSON (v : openai.ModelResponse.t).

(** What the handler leaves in the [http.ResponseWriter]: the status (200
    when the handler never sets one), the Content-Type header when the
    handler sets it, and the value written as the body. The writer accepts
    every write. *)
Record Response : Type :=
  { StatusCode : Z;
    ContentType : option string;
    Payload : payload }.

Definition StatusOK : Z := 200.
Definition StatusBadRequest : Z := 400.
Definition StatusMethodNotAllowed : Z := 405.
Definition StatusInternalServerError : Z := 500.

(** [http.StatusText] at the four codes the handlers use. *)
Definition StatusText (code : Z) : string :=
  if (code =? 200)%Z then "OK"
  else if (code =? 400)%Z then "Bad Request"
  else if (code =? 405)%Z then "Method Not Allowed"
  else if (code =? 500)%Z then "Internal Server Error"
  else "".

(** [http.Error(w, msg, code)]. *)
Definition httpError (msg : string) (code : Z) : Response :=
  {| StatusCode := code;
     ContentType := Some "text/plain; charset=utf-8";
     Payload := ErrorText msg |}.

(** *** Process state *)

(** An observation of [requestsTotal] or of [embeddingBatchSize]; the
    latency histogram measures wall-clock time and is left out. *)
Inductive metric : Type :=
| RequestsTotal (path method status : string)
| EmbeddingBatchSize (model : string) (size : Z).

(** [currentClient] is the [atomic.Int32]; [geminiClients] is filled once by
    [main] and is a parameter of the handlers. *)
Record State : Type :=
  { currentClient : Z;
    metrics : list metric }.

Definition observe (m : metric) (st : State) : State :=
  {| currentClient := currentClient st; metrics := metrics st ++ [m] |}.

Definition requestsTotalInc (r : Request) (code : Z) (st : State) : State :=
  observe (RequestsTotal (Path r) (Method r) (StatusText code)) st.

(** Two's complement wrap-around of a 32-bit signed integer: the result of
    [atomic.Int32.Add] and of the conversion [int32(x)]. *)
Definition int32_wrap (x : Z) : Z := (x + 2 ^ 31) mod 2 ^ 32 - 2 ^ 31.

(** [currentClient.Add(1)]: one atomic step, giving the new value. *)
Definition Add1 (st : State) : State * Z :=
  let new := int32_wrap (currentClient st + 1) in
  ({| currentClient := new; metrics := metrics st |}, new).

(** Go's [%] on integers truncates towards zero ([Z.rem]) and panics on a
    zero divisor. *)
Definition go_rem (a b : Z) : outcome Z :=
  if (b =? 0)%Z then Panics "runtime error: integer divide by zero"
  else Returns (Z.rem a b).

(** The index expression [s[i]]. *)
Definition index {A : Type} (s : list A) (i : Z) : outcome A :=
  if (i <? 0)%Z then Panics "runtime error: index out of range"
  else match s !! Z.to_nat i with
       | Some x => Returns x
       | None => Panics "runtime error: index out of range"
       end.

(** Lines 492 and 495 of [embeddingsHandler]:
    [useIndex := currentClient.Add(1) % int32(len(geminiClients))] and then
    [geminiClients[useIndex]]. *)
Definition nextClient (geminiClients : list genai.Client) (st : State)
  : State * outcome (Z * genai.Client) :=
  let '(st1, added) := Add1 st in
  match go_rem added (int32_wrap (Z.of_nat (length geminiClients))) with
  | Panics msg => (st1, Panics msg)
  | Returns useIndex =>
      match index geminiClients useIndex with
      | Panics msg => (st1, Panics msg)
      | Returns client => (st1, Returns (useIndex, client))
      end
  end.

(** *** JSON encoding of the response *)

(** [encoding/json] refuses NaN and the infinities; everything else an
    [EmbedResponse] holds can be encoded. [Encode] marshals the whole value
    before it writes: when it fails nothing was written, and the handler
    only logs and counts the failure. *)
Definition float_encodable (f : float32) : bool :=
  negb (PrimFloat.is_nan f || PrimFloat.is_infinity f).

Definition encodable (v : openai.EmbedResponse.t) : bool :=
  forallb (fun d => forallb float_encodable (openai.EmbedResponseData.Embedding d))
          (openai.EmbedResponse.Data v).

(** *** embeddingsHandler *)

(** The single-value assertion [openAIReq.Input.([]interface{})] of the
    batch-size observation: it panics when the dynamic type differs. *)
Definition must_slice (v : any) : outcome (list any) :=
  let '(l, ok) := assert_slice v in
  if ok then Returns l
  else Panics ("interface conversion: interface {} is " ++ typeName v
               ++ ", not []interface {}").

Definition embeddingsHandler
    (geminiClients : list genai.Client)
    (BatchEmbedContents :
       genai.EmbeddingModel -> genai.EmbeddingBatch ->
       result genai.BatchEmbedContentsResponse)
    (r : Request) (st : State) : State * outcome Response :=
  if negb (String.eqb (Method r) "POST") then
    (requestsTotalInc r StatusMethodNotAllowed st,
     Returns (httpError "Method Not Allowed" StatusMethodNotAllowed))
  else
    match Body r with
    | Unreadable | Malformed =>
        (requestsTotalInc r StatusBadRequest st,
         Returns (httpError "Bad Request" StatusBadRequest))
    | Decoded openAIReq =>
        match nextClient geminiClients st with
        | (st1, Panics msg) => (st1, Panics msg)
        | (st1, Returns (useIndex, client)) =>
            let embeddingModel :=
              genai.EmbeddingModelOf client (openai.EmbedRequest.Model openAIReq) in
            match openai.ConvertOpenAIRequestToGemini openAIReq embeddingModel with
            | Err _ =>
                (requestsTotalInc r StatusBadRequest st1,
                 Returns (httpError "Bad Request" StatusBadRequest))
            | Ok geminiBatchReq =>
                match BatchEmbedContents embeddingModel geminiBatchReq with
                | Err _ =>
                    (requestsTotalInc r StatusInternalServerError st1,
                     Returns (httpError "Internal Server Error"
                                StatusInternalServerError))
                | Ok geminiBatchResp =>
                    let openAIResp :=
                      openai.ConvertGeminiResponseToOpenAI geminiBatchResp
                        (openai.EmbedRequest.Model openAIReq) in
                    match must_slice (openai.EmbedRequest.Input openAIReq) with
                    | Panics msg => (st1, Panics msg)
                    | Returns items =>
                        let st2 :=
                          observe (EmbeddingBatchSize
                                     (openai.EmbedRequest.Model openAIReq)
                                     (Z.of_nat (length items))) st1 in
                        if encodable openAIResp then
                          (requestsTotalInc r StatusOK st2,
                           Returns {| StatusCode := StatusOK;
                                      ContentType := Some "application/json";
                                      Payload := EmbedJSON openAIResp |})
                        else
                          (requestsTotalInc r StatusInternalServerError st2,
                           Returns {| StatusCode := StatusOK;
                                      ContentType := Some "application/json";
                                      Payload := NoBody |})
                    end
                end
            end
        end
    end.

(** *** modelsHandler *)

(** [slices.Contains]. *)
Definition slices_Contains (s : list string) (v : string) : bool :=
  existsb (String.eqb v) s.

(** The [for { m, err := iter.Next() ... }] loop. The iterator is the
    sequence of what its [Next] returns before [iterator.Done]: a model, or
    an error. [models] is the slice collected so far. *)
Fixpoint drain (iter : list (result genai.ModelInfo))
    (models : list openai.ModelResponseData.t)
  : result (list openai.ModelResponseData.t) :=
  match iter with
  | [] => Ok models
  | Err e :: _ => Err e
  | Ok m :: rest =>
      if negb (slices_Contains (genai.SupportedGenerationMethods m) "embedContent")
      then drain rest models
      else drain rest
             (models ++ [ {| openai.ModelResponseData.Object := "model";
                             openai.ModelResponseData.ID := genai.Name m;
                             openai.ModelResponseData.Created := 0;
                             openai.ModelResponseData.OwnedBy := "google" |} ])
  end.

Definition modelsHandler
    (geminiClients : list genai.Client)
    (ListModels : genai.Client -> list (result genai.ModelInfo))
    (r : Request) (st : State) : State * outcome Response :=
  if negb (String.eqb (Method r) "GET") then
    (requestsTotalInc r StatusMethodNotAllowed st,
     Returns (httpError "Method Not Allowed" StatusMethodNotAllowed))
  else
    match index geminiClients 0 with
    | Panics msg => (st, Panics msg)
    | Returns client =>
        match drain (ListModels client) [] with
        | Err _ =>
            (requestsTotalInc r StatusInternalServerError st,
             Returns (httpError "Internal Server Error" StatusInternalServerError))
        | Ok models =>
            (requestsTotalInc r StatusOK st,
             Returns {| StatusCode := StatusOK;
                        ContentType := None;
                        Payload :=
                          ModelsJSON {| openai.ModelResponse.Object := "list";
                                        openai.ModelResponse.Data := models |} |})
        end
    end.

(** A run of [k] consecutive selections from state [st], one per handler
    invocation that reaches line 492: what each of them yields (an index, or
    the panic of that invocation) and the state they leave. Each [Add] is
    atomic, so a concurrent run of [k] invocations is one such sequence, in
    the order in which their [Add]s took effect. *)
Fixpoint selections (geminiClients : list genai.Client) (k : nat) (st : State)
  : State * list (outcome Z) :=
  match k with
  | O => (st, [])
  | S k' =>
      let '(st1, o) := nextClient geminiClients st in
      let '(st2, os) := selections geminiClients k' st1 in
      (st2, match o with
            | Returns (useIndex, _) => Returns useIndex
            | Panics msg => Panics msg
            end :: os)
  end.

End main.

(** ** Package [strings] of the Go library, as [main.go] uses it *)

(** [strings.Split(s, sep)] for a separator of one byte: the pieces of [s]
    between the occurrences of [sep], empty pieces included; one piece more
    than there are separators, so never an empty slice. *)
Fixpoint strings_Split (s : string) (sep : Ascii.ascii) : list string :=
  match s with
  | EmptyString => [EmptyString]
  | String.String ch rest =>
      if Ascii.eqb ch sep then EmptyString :: strings_Split rest sep
      else match strings_Split rest sep with
           | piece :: pieces => String.String ch piece :: pieces
           | [] => [String.String ch EmptyString]
           end
  end.

(** [strings.Count(s, sep)] for a separator of one byte. *)
Fixpoint strings_Count (s : string) (sep : Ascii.ascii) : nat :=
  match s with
  | EmptyString => O
  | String.String ch rest =>
      if Ascii.eqb ch sep then S (strings_Count rest sep)
      else strings_Count rest sep
  end.

(** [strings.Join(elems, sep)] for a separator of one byte. *)
Fixpoint strings_Join (elems : list string) (sep : Ascii.ascii) : string :=
  match elems with
  | [] => EmptyString
  | [piece] => piece
  | piece :: rest => piece ++ String.String sep (strings_Join rest sep)
  end.

(** ** main.go: the package variables and the start of [main] *)
Module startup.

(** The environment variables the package variables are read from;
    [os.Getenv] gives the empty string for a variable that is not set. *)
Record Env : Type :=
  { GEMINI_API_KEY : string;
    LISTEN_ADDR : string;
    METRICS_ADDR : string }.

Definition GeminiApiKey (env : Env) : string := GEMINI_API_KEY env.

(** [GeminiApiKeys = strings.Split(GeminiApiKey, ";")]. *)
Definition GeminiApiKeys (env : Env) : list string :=
  strings_Split (GeminiApiKey env) ";"%char.

(** The loop [for _, key := range GeminiApiKeys] of [main]:
    [genai.NewClient] is the SDK's constructor, a parameter here; the first
    key it refuses ends the process. [geminiClients] is the slice appended
    to. *)
Fixpoint rangeKeys (NewClient : string -> result genai.Client)
    (keys : list string) (geminiClients : list genai.Client)
  : result (list genai.Client) :=
  match keys with
  | [] => Ok geminiClients
  | key :: rest =>
      match NewClient key with
      | Err e => Err e
      | Ok client => rangeKeys NewClient rest (geminiClients ++ [client])
      end
  end.

(** What [main] comes to before it blocks in [http.ListenAndServe]: the
    process has exited through [log.Fatal], or the two handlers are
    registered and served on [ListenAddr], over the pool and the counter
    below, with the metrics endpoint when [METRICS_ADDR] is set. *)
Inductive started : Type :=
| Fatal (msg : string)
| Serving (ListenAddr : string) (MetricsAddr : option string)
          (geminiClients : list genai.Client) (st : main.State).

Definition main (env : Env) (NewClient : string -> result genai.Client) : started :=
  let ListenAddr :=
    if String.eqb (LISTEN_ADDR env) "" then ":8080" else LISTEN_ADDR env in
  if String.eqb (GeminiApiKey env) "" then Fatal "GEMINI_API_KEY is required"
  else
    match rangeKeys NewClient (GeminiApiKeys env) [] with
    | Err e => Fatal ("failed to create Gemini client: " ++ e)
    | Ok geminiClients =>
        Serving ListenAddr
          (if String.eqb (METRICS_ADDR env) "" then None
           else Some (METRICS_ADDR env))
          geminiClients
          {| main.currentClient := 0; main.metrics := [] |}
    end.

End startup.

(** ** main.go, the revision before the metrics (lines 222 to 299)

    The pool and the counter are there; the batch-size observation and the
    request counters are not. The state is the counter alone. *)
Module main_rev2.

Definition nextClient (geminiClients : list genai.Client) (currentClient : Z)
  : Z * outcome (Z * genai.Client) :=
  let added := main.int32_wrap (currentClient + 1) in
  match main.go_rem added (main.int32_wrap (Z.of_nat (length geminiClients))) with
  | Panics msg => (added, Panics msg)
  | Returns useIndex =>
      match main.index geminiClients useIndex with
      | Panics msg => (added, Panics msg)
      | Returns client => (added, Returns (useIndex, client))
      end
  end.

Definition embeddingsHandler
    (geminiClients : list genai.Client)
    (BatchEmbedContents :
       genai.EmbeddingModel -> genai.EmbeddingBatch ->
       result genai.BatchEmbedContentsResponse)
    (r : main.Request) (currentClient : Z) : Z * outcome main.Response :=
  if negb (String.eqb (main.Method r) "POST") then
    (currentClient,
     Returns (main.httpError "Method Not Allowed" main.StatusMethodNotAllowed))
  else
    match main.Body r with
    | main.Unreadable | main.Malformed =>
        (currentClient, Returns (main.httpError "Bad Request" main.StatusBadRequest))
    | main.Decoded openAIReq =>
        match nextClient geminiClients currentClient with
        | (added, Panics msg) => (added, Panics msg)
        | (added, Returns (useIndex, client)) =>
            let embeddingModel :=
              genai.EmbeddingModelOf client (openai.EmbedRequest.Model openAIReq) in
            match openai.ConvertOpenAIRequestToGemini openAIReq embeddingModel with
            | Err _ =>
                (added, Returns (main.httpError "Bad Request" main.StatusBadRequest))
            | Ok geminiBatchReq =>
                match BatchEmbedContents embeddingModel geminiBatchReq with
                | Err _ =>
                    (added,
                     Returns (main.httpError "Internal Server Error"
                                main.StatusInternalServerError))
                | Ok geminiBatchResp =>
                    let openAIResp :=
                      openai.ConvertGeminiResponseToOpenAI geminiBatchResp
                        (openai.EmbedRequest.Model openAIReq) in
                    (added,
                     Returns {| main.StatusCode := main.StatusOK;
                                main.ContentType := Some "application/json";
                                main.Payload :=
                                  if main.encodable openAIResp
                                  then main.EmbedJSON openAIResp
                                  else main.NoBody |})
                end
            end
        end
    end.

End main_rev2.

(** ** main.go, the first revision (lines 30 to 105)

    One client, [geminiClient], and no shared state. *)
Module main_rev1.

Definition embeddingsHandler
    (geminiClient : genai.Client)
    (BatchEmbedContents :
       genai.EmbeddingModel -> genai.EmbeddingBatch ->
       result genai.BatchEmbedContentsResponse)
    (r : main.Request) : main.Response :=
  if negb (String.eqb (main.Method r) "POST") then
    main.httpError "Method Not Allowed" main.StatusMethodNotAllowed
  else
    match main.Body r with
    | main.Unreadable | main.Malformed =>
        main.httpError "Bad Request" main.StatusBadRequest
    | main.Decoded openAIReq =>
        let embeddingModel :=
          genai.EmbeddingModelOf geminiClient (openai.EmbedRequest.Model openAIReq) in
        match openai.ConvertOpenAIRequestToGemini openAIReq embeddingModel with
        | Err _ => main.httpError "Bad Request" main.StatusBadRequest
        | Ok geminiBatchReq =>
            match BatchEmbedContents embeddingModel geminiBatchReq with
            | Err _ =>
                main.httpError "Internal Server Error" main.StatusInternalServerError
            | Ok geminiBatchResp =>
                let openAIResp :=
                  openai.ConvertGeminiResponseToOpenAI geminiBatchResp
                    (openai.EmbedRequest.Model openAIReq) in
                {| main.StatusCode := main.StatusOK;
                   main.ContentType := Some "application/json";
                   main.Payload :=
                     if main.encodable openAIResp
                     then main.EmbedJSON openAIResp
                     else main.NoBody |}
            end
        end
    end.

End main_rev1.

(** * Sample data

    Concrete requests, pools and upstream behaviours on which the
    definitions above are evaluated below. *)
Module sample.

Definition clients : list genai.Client :=
  [ {| genai.APIKey := "key-a" |};
    {| genai.APIKey := "key-b" |};
    {| genai.APIKey := "key-c" |} ].

Definition model : genai.EmbeddingModel :=
  genai.EmbeddingModelOf {| genai.APIKey := "key-a" |} "text-embedding-004".

(** The decoding of [{"input": ..., "model": "text-embedding-004"}], with
    [encoding_format] when [format] is not empty. *)
Definition request (input : any) (format : string) : openai.EmbedRequest.t :=
  {| openai.EmbedRequest.Input := input;
     openai.EmbedRequest.Model := "text-embedding-004";
     openai.EmbedRequest.EncodingFormat := format;
     openai.EmbedRequest.Dimensions := 0;
     openai.EmbedRequest.User := "" |}.

Definition post (openAIReq : openai.EmbedRequest.t) : main.Request :=
  {| main.Method := "POST";
     main.Path := "/v1/embeddings";
     main.Body := main.Decoded openAIReq |}.

(** The models handler never reads the body. *)
Definition get_models : main.Request :=
  {| main.Method := "GET";
     main.Path := "/v1/models";
     main.Body := main.Unreadable |}.

Definition state (counter : Z) : main.State :=
  {| main.currentClient := counter; main.metrics := [] |}.

Definition vector (x : float32) : genai.ContentEmbedding :=
  {| genai.Values := [x; 0.25%float] |}.

(** An upstream that answers every batch with one vector per content. *)
Definition upstream (m : genai.EmbeddingModel) (b : genai.EmbeddingBatch)
  : result genai.BatchEmbedContentsResponse :=
  Ok {| genai.Embeddings := (fun _ => vector 0.5%float) <$> genai.req b |}.

Definition three_vectors : genai.BatchEmbedContentsResponse :=
  {| genai.Embeddings := [vector 1%float; vector 2%float; vector 3%float] |}.

Definition one_vector : genai.BatchEmbedContentsResponse :=
  {| genai.Embeddings := [vector 1%float] |}.

Definition catalog : list genai.ModelInfo :=
  [ {| genai.Name := "models/gemini-pro";
       genai.SupportedGenerationMethods := ["generateContent"; "countTokens"] |};
    {| genai.Name := "models/embedding-001";
       genai.SupportedGenerationMethods := ["embedContent"] |};
    {| genai.Name := "models/text-embedding-004";
       genai.SupportedGenerationMethods := ["embedContent"; "batchEmbedContents"] |};
    {| genai.Name := "models/aqa";
       genai.SupportedGenerationMethods := ["generateAnswer"] |} ].

Definition list_models (_ : genai.Client) : list (result genai.ModelInfo) :=
  Ok <$> catalog.

End sample.

(** * Properties *)

(** ** Predicates used in the statements *)

(** The request passes the [encoding_format] validation: the field is
    absent (empty after decoding) or is ["float"]. *)
Definition formatAccepted (openAIReq : openai.EmbedRequest.t) : Prop :=
  openai.EmbedRequest.EncodingFormat openAIReq = ""
  \/ openai.EmbedRequest.EncodingFormat openAIReq = "float".

Definition is_string (v : any) : bool :=
  match v with String _ => true | _ => false end.

Definition is_slice (v : any) : bool :=
  match v with Slice _ => true | _ => false end.

(** The response entry the converter builds for the vector at position [i]. *)
Definition entry (i : Z) (e : genai.ContentEmbedding) : openai.EmbedResponseData.t :=
  {| openai.EmbedResponseData.Object := "embedding";
     openai.EmbedResponseData.Embedding := genai.Values e;
     openai.EmbedResponseData.Index := i |}.

(** The listing entry of an upstream model. *)
Definition listed (m : genai.ModelInfo) : openai.ModelResponseData.t :=
  {| openai.ModelResponseData.Object := "model";
     openai.ModelResponseData.ID := genai.Name m;
     openai.ModelResponseData.Created := 0;
     openai.ModelResponseData.OwnedBy := "google" |}.

(** The texts an input stands for, when every element of a sequence is a
    string; [None] for every other input. *)
Definition as_text (x : any) : option string :=
  match x with String t => Some t | _ => None end.

Fixpoint slice_texts (v : list any) : option (list string) :=
  match v with
  | [] => Some []
  | x :: rest =>
      match as_text x, slice_texts rest with
      | Some t, Some texts => Some (t :: texts)
      | _, _ => None
      end
  end.

Definition input_texts (input : any) : option (list string) :=
  match input with
  | String t => Some [t]
  | Slice v => slice_texts v
  | _ => None
  end.

(** The batch of one text content per text, for the model [model]. *)
Definition text_batch (model : genai.EmbeddingModel) (texts : list string)
  : genai.EmbeddingBatch :=
  {| genai.batchModel := genai.name model;
     genai.req := (fun t => [genai.Text t]) <$> texts |}.

(** The message of a rejected input: a sequence is always reported with the
    asserted type [string], every other input with its own type. *)
Definition rejection_message (input : any) : error :=
  match input with
  | Slice _ => "unsupported input type: string"
  | v => "unsupported input type: " ++ typeName v
  end.

(** A value the JSON encoder refuses. *)
Definition not_finite (x : float32) : Prop :=
  PrimFloat.is_nan x = true \/ PrimFloat.is_infinity x = true.

Definition is_decoded (b : main.body) : bool :=
  match b with main.Decoded _ => true | _ => false end.

(** The observations of [requestsTotal] in a record of metrics, and those
    of [embeddingBatchSize], each in the order they were made. What the
    handlers observe in the latency histogram is not part of the record. *)
Fixpoint requests_total (ms : list main.metric) : list main.metric :=
  match ms with
  | [] => []
  | main.RequestsTotal path method status :: rest =>
      main.RequestsTotal path method status :: requests_total rest
  | main.EmbeddingBatchSize _ _ :: rest => requests_total rest
  end.

Fixpoint batch_sizes (ms : list main.metric) : list main.metric :=
  match ms with
  | [] => []
  | main.RequestsTotal _ _ _ :: rest => batch_sizes rest
  | main.EmbeddingBatchSize model size :: rest =>
      main.EmbeddingBatchSize model size :: batch_sizes rest
  end.

Definition is_ok {A : Type} (x : result A) : bool :=
  match x with Ok _ => true | Err _ => false end.

(** Linear arithmetic with the two powers of two written out. *)
Ltac pow_lia :=
  change (2 ^ 31) with 2147483648 in *;
  change (2 ^ 32) with 4294967296 in *;
  lia.

(** ** The format guard *)

Lemma formatRejected_false (openAIReq : openai.EmbedRequest.t) :
  openai.formatRejected openAIReq = false <-> formatAccepted openAIReq.
Proof.
  unfold openai.formatRejected, formatAccepted.
  destruct (String.eqb_spec (openai.EmbedRequest.EncodingFormat openAIReq) "") as [E1|N1];
    destruct (String.eqb_spec (openai.EmbedRequest.EncodingFormat openAIReq) "float") as [E2|N2];
    simpl; split; intros H; auto; try discriminate.
  destruct H; contradiction.
Qed.

Lemma formatRejected_true (openAIReq : openai.EmbedRequest.t) :
  openai.formatRejected openAIReq = true <->
  openai.EmbedRequest.EncodingFormat openAIReq <> ""
  /\ openai.EmbedRequest.EncodingFormat openAIReq <> "float".
Proof.
  unfold openai.formatRejected.
  destruct (String.eqb_spec (openai.EmbedRequest.EncodingFormat openAIReq) "") as [E1|N1];
    destruct (String.eqb_spec (openai.EmbedRequest.EncodingFormat openAIReq) "float") as [E2|N2];
    simpl; split; intros H; auto; try discriminate; destruct H; contradiction.
Qed.

(** ** The request loop *)

Lemma rangeTexts_strings (texts : list string) :
  forall b : genai.EmbeddingBatch,
    openai.rangeTexts b (String <$> texts)
    = Ok {| genai.batchModel := genai.batchModel b;
            genai.req := (genai.req b ++ ((fun t => [genai.Text t]) <$> texts))%list |}.
Proof.
  induction texts as [|t texts IH]; intros b; simpl.
  - rewrite app_nil_r. by destruct b.
  - rewrite IH. simpl. by rewrite <- app_assoc.
Qed.

(** The loop stops at the first element that is not a string, and the
    message it builds names the asserted type, whatever the element. *)
Lemma rangeTexts_non_string (v : list any) :
  forall b : genai.EmbeddingBatch,
    existsb (fun x => negb (is_string x)) v = true ->
    openai.rangeTexts b v = Err "unsupported input type: string".
Proof.
  induction v as [|x v IH]; intros b H; simpl in *; [discriminate|].
  destruct x; simpl in *; try reflexivity.
  by apply IH.
Qed.

(** ** The response loop *)

Lemma rangeEmbeddings_imap (embeddings : list genai.ContentEmbedding) :
  forall (i : Z) (data : list openai.EmbedResponseData.t),
    openai.rangeEmbeddings i embeddings data
    = (data ++ imap (fun k e => entry (i + Z.of_nat k) e) embeddings)%list.
Proof.
  induction embeddings as [|e es IH]; intros i data; simpl.
  - by rewrite app_nil_r.
  - rewrite IH, <- app_assoc. simpl. f_equal.
    unfold entry at 2. rewrite Z.add_0_r. f_equal.
    apply imap_ext. intros k x _. simpl. f_equal. lia.
Qed.

Lemma ConvertGeminiResponseToOpenAI_Data
    (geminiBatchResp : genai.BatchEmbedContentsResponse) (model : string) :
  openai.EmbedResponse.Data (openai.ConvertGeminiResponseToOpenAI geminiBatchResp model)
  = imap (fun k e => entry (Z.of_nat k) e) (genai.Embeddings geminiBatchResp).
Proof.
  simpl. by rewrite rangeEmbeddings_imap.
Qed.

Lemma imap_entry_Index (embeddings : list genai.ContentEmbedding) (i : Z) :
  openai.EmbedResponseData.Index <$> imap (fun k e => entry (i + Z.of_nat k) e) embeddings
  = seqZ i (Z.of_nat (length embeddings)).
Proof.
  revert i. induction embeddings as [|e es IH]; intros i.
  - by rewrite seqZ_nil.
  - rewrite imap_cons, fmap_cons. cbn [length].
    rewrite Nat2Z.inj_succ, seqZ_cons, Z.pred_succ by lia.
    cbn [entry openai.EmbedResponseData.Index]. rewrite Z.add_0_r. f_equal.
    rewrite <- IH. f_equal. apply imap_ext. intros k x _.
    unfold compose. f_equal. lia.
Qed.

Lemma imap_entry_Embedding (embeddings : list genai.ContentEmbedding) (i : Z) :
  openai.EmbedResponseData.Embedding <$> imap (fun k e => entry (i + Z.of_nat k) e) embeddings
  = genai.Values <$> embeddings.
Proof.
  revert i. induction embeddings as [|e es IH]; intros i; [done|].
  rewrite imap_cons, !fmap_cons. cbn [entry openai.EmbedResponseData.Embedding].
  f_equal. rewrite <- (IH (i + 1)). f_equal. apply imap_ext. intros k x _.
  unfold compose. f_equal. lia.
Qed.

(** C3. For every upstream batch result and every model name the response
    conversion returns a response with object ["list"], the given model
    name, one data entry per embedding of the result, the entry at position
    [i] being object ["embedding"], index [i] and the values of the [i]-th
    vector unchanged, and a usage of zero prompt and zero total tokens. The
    conversion is a total function: it has no error result. *)
Theorem ConvertGeminiResponseToOpenAI_correct
    (geminiBatchResp : genai.BatchEmbedContentsResponse) (model : string) :
  let openAIResp := openai.ConvertGeminiResponseToOpenAI geminiBatchResp model in
  openai.EmbedResponse.Object openAIResp = "list"
  /\ openai.EmbedResponse.Model openAIResp = model
  /\ length (openai.EmbedResponse.Data openAIResp)
     = length (genai.Embeddings geminiBatchResp)
  /\ (forall (i : nat) (e : genai.ContentEmbedding),
        genai.Embeddings geminiBatchResp !! i = Some e ->
        openai.EmbedResponse.Data openAIResp !! i
        = Some {| openai.EmbedResponseData.Object := "embedding";
                  openai.EmbedResponseData.Embedding := genai.Values e;
                  openai.EmbedResponseData.Index := Z.of_nat i |})
  /\ openai.EmbedResponse.Usage openAIResp
     = {| openai.Usage.PromptTokens := 0; openai.Usage.TotalTokens := 0 |}.
Proof.
  intros openAIResp. subst openAIResp.
  rewrite ConvertGeminiResponseToOpenAI_Data.
  repeat split.
  - apply length_imap.
  - intros i e He. rewrite list_lookup_imap, He. reflexivity.
Qed.

(** C2. For a request that passes the format validation and whose input is
    a sequence of [N] strings ([N >= 0]), the request conversion produces a
    batch of exactly [N] text items, in the order of the input; and the
    response conversion of an upstream result with [N] vectors produces [N]
    embeddings whose indices are [0, ..., N-1] and whose values are the
    vectors, in that order. *)
Theorem sequence_of_strings_round_trip
    (openAIReq : openai.EmbedRequest.t) (model : genai.EmbeddingModel)
    (texts : list string)
    (geminiBatchResp : genai.BatchEmbedContentsResponse) (modelName : string) :
  openai.EmbedRequest.Input openAIReq = Slice (String <$> texts) ->
  formatAccepted openAIReq ->
  length (genai.Embeddings geminiBatchResp) = length texts ->
  openai.ConvertOpenAIRequestToGemini openAIReq model
  = Ok {| genai.batchModel := genai.name model;
          genai.req := (fun t => [genai.Text t]) <$> texts |}
  /\ length (openai.EmbedResponse.Data
               (openai.ConvertGeminiResponseToOpenAI geminiBatchResp modelName))
     = length texts
  /\ openai.EmbedResponseData.Index
       <$> openai.EmbedResponse.Data
             (openai.ConvertGeminiResponseToOpenAI geminiBatchResp modelName)
     = seqZ 0 (Z.of_nat (length texts))
  /\ openai.EmbedResponseData.Embedding
       <$> openai.EmbedResponse.Data
             (openai.ConvertGeminiResponseToOpenAI geminiBatchResp modelName)
     = genai.Values <$> genai.Embeddings geminiBatchResp.
Proof.
  intros Hinput Hformat Hlen.
  apply formatRejected_false in Hformat.
  rewrite ConvertGeminiResponseToOpenAI_Data.
  repeat split.
  - unfold openai.ConvertOpenAIRequestToGemini.
    rewrite Hformat, Hinput. apply rangeTexts_strings.
  - by rewrite length_imap.
  - rewrite <- Hlen. apply (imap_entry_Index _ 0).
  - apply (imap_entry_Embedding _ 0).
Qed.

Lemma sequence_of_strings_round_trip_witness :
  openai.ConvertOpenAIRequestToGemini
    (sample.request (Slice [String "a"; String "b"; String "c"]) "float")
    sample.model
  = Ok {| genai.batchModel := "text-embedding-004";
          genai.req := [[genai.Text "a"]; [genai.Text "b"]; [genai.Text "c"]] |}
  /\ length (openai.EmbedResponse.Data
               (openai.ConvertGeminiResponseToOpenAI sample.three_vectors "m"))
     = 3%nat
  /\ openai.EmbedResponseData.Index
       <$> openai.EmbedResponse.Data
             (openai.ConvertGeminiResponseToOpenAI sample.three_vectors "m")
     = seqZ 0 3
  /\ openai.EmbedResponseData.Embedding
       <$> openai.EmbedResponse.Data
             (openai.ConvertGeminiResponseToOpenAI sample.three_vectors "m")
     = genai.Values <$> genai.Embeddings sample.three_vectors.
Proof.
  apply (sequence_of_strings_round_trip
           (sample.request (Slice [String "a"; String "b"; String "c"]) "float")
           sample.model ["a"; "b"; "c"] sample.three_vectors "m").
  - reflexivity.
  - right. reflexivity.
  - reflexivity.
Defined.

(** C9. For a request that passes the format validation and whose input is
    a single string, the request conversion produces a batch of exactly one
    text item, that string; and the response conversion of the one-vector
    upstream result contains exactly one embedding, at index 0. *)
Theorem single_string_round_trip
    (openAIReq : openai.EmbedRequest.t) (model : genai.EmbeddingModel)
    (v : string) (e : genai.ContentEmbedding)
    (geminiBatchResp : genai.BatchEmbedContentsResponse) (modelName : string) :
  openai.EmbedRequest.Input openAIReq = String v ->
  formatAccepted openAIReq ->
  genai.Embeddings geminiBatchResp = [e] ->
  openai.ConvertOpenAIRequestToGemini openAIReq model
  = Ok {| genai.batchModel := genai.name model;
          genai.req := [[genai.Text v]] |}
  /\ openai.EmbedResponse.Data
       (openai.ConvertGeminiResponseToOpenAI geminiBatchResp modelName)
     = [ {| openai.EmbedResponseData.Object := "embedding";
            openai.EmbedResponseData.Embedding := genai.Values e;
            openai.EmbedResponseData.Index := 0 |} ].
Proof.
  intros Hinput Hformat Hone.
  apply formatRejected_false in Hformat.
  split.
  - unfold openai.ConvertOpenAIRequestToGemini.
    rewrite Hformat, Hinput. reflexivity.
  - rewrite ConvertGeminiResponseToOpenAI_Data, Hone. reflexivity.
Qed.

Lemma single_string_round_trip_witness :
  openai.ConvertOpenAIRequestToGemini (sample.request (String "hello") "") sample.model
  = Ok {| genai.batchModel := "text-embedding-004";
          genai.req := [[genai.Text "hello"]] |}
  /\ openai.EmbedResponse.Data
       (openai.ConvertGeminiResponseToOpenAI sample.one_vector "m")
     = [ {| openai.EmbedResponseData.Object := "embedding";
            openai.EmbedResponseData.Embedding := [1%float; 0.25%float];
            openai.EmbedResponseData.Index := 0 |} ].
Proof.
  apply (single_string_round_trip (sample.request (String "hello") "") sample.model
           "hello" (sample.vector 1%float) sample.one_vector "m").
  - reflexivity.
  - left. reflexivity.
  - reflexivity.
Defined.

(** ** Rejected inputs *)

(** Whatever the loop rejects, it rejects with one and the same message. *)
Lemma rangeTexts_Err (v : list any) :
  forall (b : genai.EmbeddingBatch) (e : error),
    openai.rangeTexts b v = Err e -> e = "unsupported input type: string".
Proof.
  induction v as [|x v IH]; intros b e H; simpl in H; [discriminate|].
  destruct x; simpl in H; try (by inversion H).
  by apply IH in H.
Qed.

Lemma errUnsupportedInputType_not_format (x : any) :
  openai.errUnsupportedInputType x <> openai.errUnsupportedFormat.
Proof.
  unfold openai.errUnsupportedInputType, openai.errUnsupportedFormat.
  simpl. discriminate.
Qed.

(** A sequence holding an element that is not a string is rejected, once
    the format validation is passed; the message says [string]. *)
Lemma sequence_with_non_string_rejected
    (openAIReq : openai.EmbedRequest.t) (model : genai.EmbeddingModel) (v : list any) :
  openai.EmbedRequest.Input openAIReq = Slice v ->
  formatAccepted openAIReq ->
  existsb (fun x => negb (is_string x)) v = true ->
  openai.ConvertOpenAIRequestToGemini openAIReq model
  = Err "unsupported input type: string".
Proof.
  intros Hinput Hformat Hex. apply formatRejected_false in Hformat.
  unfold openai.ConvertOpenAIRequestToGemini. rewrite Hformat, Hinput.
  by apply rangeTexts_non_string.
Qed.

(** The default case of the type switch. *)
Lemma other_shape_rejected
    (openAIReq : openai.EmbedRequest.t) (model : genai.EmbeddingModel) :
  is_string (openai.EmbedRequest.Input openAIReq) = false ->
  is_slice (openai.EmbedRequest.Input openAIReq) = false ->
  openai.ConvertOpenAIRequestToGemini openAIReq model
  = Err (if openai.formatRejected openAIReq then openai.errUnsupportedFormat
         else openai.errUnsupportedInputType (openai.EmbedRequest.Input openAIReq)).
Proof.
  intros Hs Hl. unfold openai.ConvertOpenAIRequestToGemini.
  destruct (openai.formatRejected openAIReq); [reflexivity|].
  destruct (openai.EmbedRequest.Input openAIReq); simpl in *;
    try reflexivity; discriminate.
Qed.

(** Step 4 of the embeddings handler: a conversion error is answered with
    400 Bad Request, by an invocation that got as far as the conversion. *)
Lemma embeddingsHandler_conversion_error
    (geminiClients : list genai.Client)
    (BatchEmbedContents :
       genai.EmbeddingModel -> genai.EmbeddingBatch ->
       result genai.BatchEmbedContentsResponse)
    (r : main.Request) (st st1 : main.State) (useIndex : Z) (client : genai.Client)
    (openAIReq : openai.EmbedRequest.t) (e : error) :
  main.Method r = "POST" ->
  main.Body r = main.Decoded openAIReq ->
  main.nextClient geminiClients st = (st1, Returns (useIndex, client)) ->
  openai.ConvertOpenAIRequestToGemini openAIReq
    (genai.EmbeddingModelOf client (openai.EmbedRequest.Model openAIReq)) = Err e ->
  main.embeddingsHandler geminiClients BatchEmbedContents r st
  = (main.requestsTotalInc r main.StatusBadRequest st1,
     Returns (main.httpError "Bad Request" main.StatusBadRequest)).
Proof.
  intros Hm Hb Hsel Hconv. unfold main.embeddingsHandler.
  rewrite Hm, Hb, Hsel. simpl. rewrite Hconv. reflexivity.
Qed.

(** X27. The request conversion fails with the unsupported-format error
    exactly when [encoding_format] is present (not empty) and differs from
    ["float"]; a request whose format is absent or ["float"] is not stopped
    by this validation. Through the handler, a POST whose body decodes to a
    request with any other format is answered with 400, when the selection
    of the client returned. *)
Theorem unsupported_format_rejected (openAIReq : openai.EmbedRequest.t) :
  (forall model : genai.EmbeddingModel,
      openai.ConvertOpenAIRequestToGemini openAIReq model
      = Err openai.errUnsupportedFormat
      <-> openai.EmbedRequest.EncodingFormat openAIReq <> ""
          /\ openai.EmbedRequest.EncodingFormat openAIReq <> "float")
  /\ (forall (geminiClients : list genai.Client)
             (BatchEmbedContents :
                genai.EmbeddingModel -> genai.EmbeddingBatch ->
                result genai.BatchEmbedContentsResponse)
             (r : main.Request) (st st1 : main.State)
             (useIndex : Z) (client : genai.Client),
        openai.EmbedRequest.EncodingFormat openAIReq <> "" ->
        openai.EmbedRequest.EncodingFormat openAIReq <> "float" ->
        main.Method r = "POST" ->
        main.Body r = main.Decoded openAIReq ->
        main.nextClient geminiClients st = (st1, Returns (useIndex, client)) ->
        main.embeddingsHandler geminiClients BatchEmbedContents r st
        = (main.requestsTotalInc r 400 st1,
           Returns (main.httpError "Bad Request" 400))).
Proof.
  split.
  - intros model. rewrite <- formatRejected_true.
    unfold openai.ConvertOpenAIRequestToGemini.
    destruct (openai.formatRejected openAIReq) eqn:Hrej; [done|].
    split; [|discriminate]. intros H. exfalso.
    destruct (openai.EmbedRequest.Input openAIReq) eqn:Hinput;
      try discriminate;
      try (injection H as H; revert H; apply errUnsupportedInputType_not_format).
    apply rangeTexts_Err in H. discriminate.
  - intros geminiClients BatchEmbedContents r st st1 useIndex client
           Hne Hnf Hm Hb Hsel.
    eapply embeddingsHandler_conversion_error; eauto.
    unfold openai.ConvertOpenAIRequestToGemini.
    rewrite (proj2 (formatRejected_true openAIReq)); auto.
Qed.

Lemma unsupported_format_rejected_witness :
  openai.ConvertOpenAIRequestToGemini
    (sample.request (String "hello") "base64") sample.model
  = Err "unsupported encoding format"
  /\ main.embeddingsHandler sample.clients sample.upstream
       (sample.post (sample.request (String "hello") "base64")) (sample.state 0)
     = (main.requestsTotalInc
          (sample.post (sample.request (String "hello") "base64")) 400
          (sample.state 1),
        Returns (main.httpError "Bad Request" 400)).
Proof.
  split.
  - apply (proj1 (unsupported_format_rejected
                    (sample.request (String "hello") "base64"))).
    split; discriminate.
  - apply (proj2 (unsupported_format_rejected
                    (sample.request (String "hello") "base64"))
             sample.clients sample.upstream _ (sample.state 0) (sample.state 1)
             1 {| genai.APIKey := "key-b" |}).
    + discriminate.
    + discriminate.
    + reflexivity.
    + reflexivity.
    + reflexivity.
Defined.

(** X28. For a request whose input is neither a single string nor a
    sequence (a number, an object, a boolean, null), the request conversion
    fails: with the unsupported-input-type error naming the type of the
    input once the format validation is passed (the format error comes
    first otherwise); and a POST whose body decodes to such a request is
    answered with 400 Bad Request, when the selection of the client
    returned. *)
Theorem other_input_shape_rejected (openAIReq : openai.EmbedRequest.t) :
  is_string (openai.EmbedRequest.Input openAIReq) = false ->
  is_slice (openai.EmbedRequest.Input openAIReq) = false ->
  (forall model : genai.EmbeddingModel,
      (exists e, openai.ConvertOpenAIRequestToGemini openAIReq model = Err e)
      /\ (formatAccepted openAIReq ->
          openai.ConvertOpenAIRequestToGemini openAIReq model
          = Err ("unsupported input type: "
                 ++ typeName (openai.EmbedRequest.Input openAIReq))))
  /\ (forall (geminiClients : list genai.Client)
             (BatchEmbedContents :
                genai.EmbeddingModel -> genai.EmbeddingBatch ->
                result genai.BatchEmbedContentsResponse)
             (r : main.Request) (st st1 : main.State)
             (useIndex : Z) (client : genai.Client),
        main.Method r = "POST" ->
        main.Body r = main.Decoded openAIReq ->
        main.nextClient geminiClients st = (st1, Returns (useIndex, client)) ->
        main.embeddingsHandler geminiClients BatchEmbedContents r st
        = (main.requestsTotalInc r 400 st1,
           Returns (main.httpError "Bad Request" 400))).
Proof.
  intros Hs Hl. split.
  - intros model. rewrite (other_shape_rejected openAIReq model Hs Hl).
    split; [eauto|]. intros Hformat.
    apply formatRejected_false in Hformat. by rewrite Hformat.
  - intros geminiClients BatchEmbedContents r st st1 useIndex client Hm Hb Hsel.
    eapply embeddingsHandler_conversion_error; eauto.
    apply other_shape_rejected; assumption.
Qed.

Lemma other_input_shape_rejected_witness :
  openai.ConvertOpenAIRequestToGemini
    (sample.request (Float64 42%float) "") sample.model
  = Err "unsupported input type: float64"
  /\ main.embeddingsHandler sample.clients sample.upstream
       (sample.post (sample.request (Map [("text", String "hello")]) "float"))
       (sample.state 4)
     = (main.requestsTotalInc
          (sample.post (sample.request (Map [("text", String "hello")]) "float")) 400
          (sample.state 5),
        Returns (main.httpError "Bad Request" 400)).
Proof.
  split.
  - apply (proj1 (other_input_shape_rejected
                    (sample.request (Float64 42%float) "")
                    eq_refl eq_refl) sample.model).
    left. reflexivity.
  - apply (proj2 (other_input_shape_rejected
                    (sample.request (Map [("text", String "hello")]) "float")
                    eq_refl eq_refl)
             sample.clients sample.upstream _ (sample.state 4) (sample.state 5)
             2 {| genai.APIKey := "key-c" |}).
    + reflexivity.
    + reflexivity.
    + reflexivity.
Defined.

(** X29. When the input field is absent from the body or is JSON null, the
    decoded input is nil: the request conversion then returns an error and
    never a batch, empty or not; the error is the unsupported-input-type
    error (for [<nil>]) once the format validation is passed. A POST whose
    body decodes to such a request, [{"model": "m"}] for one, is answered
    with 400 and not with a 200 carrying empty data, when the selection of
    the client returned. *)
Theorem nil_input_rejected (openAIReq : openai.EmbedRequest.t) :
  openai.EmbedRequest.Input openAIReq = Nil ->
  (forall model : genai.EmbeddingModel,
      (forall b, openai.ConvertOpenAIRequestToGemini openAIReq model <> Ok b)
      /\ (formatAccepted openAIReq ->
          openai.ConvertOpenAIRequestToGemini openAIReq model
          = Err "unsupported input type: <nil>"))
  /\ (forall (geminiClients : list genai.Client)
             (BatchEmbedContents :
                genai.EmbeddingModel -> genai.EmbeddingBatch ->
                result genai.BatchEmbedContentsResponse)
             (r : main.Request) (st st1 : main.State)
             (useIndex : Z) (client : genai.Client),
        main.Method r = "POST" ->
        main.Body r = main.Decoded openAIReq ->
        main.nextClient geminiClients st = (st1, Returns (useIndex, client)) ->
        main.embeddingsHandler geminiClients BatchEmbedContents r st
        = (main.requestsTotalInc r 400 st1,
           Returns (main.httpError "Bad Request" 400))).
Proof.
  intros Hnil.
  assert (Hs : is_string (openai.EmbedRequest.Input openAIReq) = false)
    by (by rewrite Hnil).
  assert (Hl : is_slice (openai.EmbedRequest.Input openAIReq) = false)
    by (by rewrite Hnil).
  split.
  - intros model. rewrite (other_shape_rejected openAIReq model Hs Hl).
    split; [discriminate|]. intros Hformat.
    apply formatRejected_false in Hformat. by rewrite Hformat, Hnil.
  - intros geminiClients BatchEmbedContents r st st1 useIndex client Hm Hb Hsel.
    eapply embeddingsHandler_conversion_error; eauto.
    apply other_shape_rejected; assumption.
Qed.

Lemma nil_input_rejected_witness :
  openai.ConvertOpenAIRequestToGemini
    {| openai.EmbedRequest.Input := Nil;
       openai.EmbedRequest.Model := "m";
       openai.EmbedRequest.EncodingFormat := "";
       openai.EmbedRequest.Dimensions := 0;
       openai.EmbedRequest.User := "" |}
    sample.model
  = Err "unsupported input type: <nil>"
  /\ main.embeddingsHandler sample.clients sample.upstream
       {| main.Method := "POST";
          main.Path := "/v1/embeddings";
          main.Body :=
            main.Decoded
              {| openai.EmbedRequest.Input := Nil;
                 openai.EmbedRequest.Model := "m";
                 openai.EmbedRequest.EncodingFormat := "";
                 openai.EmbedRequest.Dimensions := 0;
                 openai.EmbedRequest.User := "" |} |}
       (sample.state 0)
     = ({| main.currentClient := 1;
           main.metrics := [main.RequestsTotal "/v1/embeddings" "POST" "Bad Request"] |},
        Returns {| main.StatusCode := 400;
                   main.ContentType := Some "text/plain; charset=utf-8";
                   main.Payload := main.ErrorText "Bad Request" |}).
Proof.
  split.
  - apply (proj1 (nil_input_rejected
                    {| openai.EmbedRequest.Input := Nil;
                       openai.EmbedRequest.Model := "m";
                       openai.EmbedRequest.EncodingFormat := "";
                       openai.EmbedRequest.Dimensions := 0;
                       openai.EmbedRequest.User := "" |}
                    eq_refl) sample.model).
    left. reflexivity.
  - exact (proj2 (nil_input_rejected
                    {| openai.EmbedRequest.Input := Nil;
                       openai.EmbedRequest.Model := "m";
                       openai.EmbedRequest.EncodingFormat := "";
                       openai.EmbedRequest.Dimensions := 0;
                       openai.EmbedRequest.User := "" |}
                    eq_refl)
             sample.clients sample.upstream
             {| main.Method := "POST";
                main.Path := "/v1/embeddings";
                main.Body :=
                  main.Decoded
                    {| openai.EmbedRequest.Input := Nil;
                       openai.EmbedRequest.Model := "m";
                       openai.EmbedRequest.EncodingFormat := "";
                       openai.EmbedRequest.Dimensions := 0;
                       openai.EmbedRequest.User := "" |} |}
             (sample.state 0) (sample.state 1)
             1 {| genai.APIKey := "key-b" |} eq_refl eq_refl eq_refl).
Defined.

(** C5. The claim: a sequence with an element that is not a string is
    rejected with a message that identifies the type of the first such
    element. The source formats the zero string left by the failed
    assertion instead of the element: for [["a", 1.5, null]] the message
    names [string], while the first offending element is a [float64]. *)
Theorem element_type_misreported :
  openai.ConvertOpenAIRequestToGemini
    (sample.request (Slice [String "a"; Float64 1.5%float; Nil]) "") sample.model
  = Err "unsupported input type: string"
  /\ typeName (Float64 1.5%float) = "float64"
  /\ openai.errUnsupportedInputType (Float64 1.5%float)
     = "unsupported input type: float64".
Proof. repeat split. Qed.

(** C4. The claim: on the success path the batch-size observation cannot
    fail, also for a single-string input. The source asserts
    [openAIReq.Input.([]interface{})] in the single-value form: for the body
    [{"input": "hello", "model": "text-embedding-004"}], which the converter
    accepts and the upstream answers, the handler panics there, after the
    counter was advanced and before anything is written. *)
Theorem batch_size_assertion_panics_on_single_string :
  openai.ConvertOpenAIRequestToGemini (sample.request (String "hello") "")
    (genai.EmbeddingModelOf {| genai.APIKey := "key-b" |} "text-embedding-004")
  = Ok {| genai.batchModel := "text-embedding-004";
          genai.req := [[genai.Text "hello"]] |}
  /\ main.embeddingsHandler sample.clients sample.upstream
       (sample.post (sample.request (String "hello") "")) (sample.state 0)
     = (sample.state 1,
        Panics "interface conversion: interface {} is string, not []interface {}").
Proof. split; reflexivity. Qed.

(** ** Indexing *)

Lemma index_lookup {A : Type} (s : list A) (i : Z) (x : A) :
  0 <= i /\ s !! Z.to_nat i = Some x -> main.index s i = Returns x.
Proof.
  intros [Hi Hx]. unfold main.index.
  destruct (Z.ltb_spec i 0) as [Hneg|_]; [lia|]. by rewrite Hx.
Qed.

Lemma index_out_of_range {A : Type} (s : list A) (i : Z) :
  i < 0 \/ Z.of_nat (length s) <= i ->
  main.index s i = Panics "runtime error: index out of range".
Proof.
  intros H. unfold main.index.
  destruct (Z.ltb_spec i 0) as [Hneg|Hpos]; [reflexivity|].
  rewrite (lookup_ge_None_2 s (Z.to_nat i)) by lia. reflexivity.
Qed.

(** ** Model listing *)

Lemma slices_Contains_elem_of (s : list string) (v : string) :
  main.slices_Contains s v = true <-> v ∈ s.
Proof.
  unfold main.slices_Contains. rewrite existsb_exists. split.
  - intros (x & Hin & Heq). apply String.eqb_eq in Heq. subst x.
    by apply list_elem_of_In.
  - intros Hin. exists v. split; [by apply list_elem_of_In | apply String.eqb_refl].
Qed.

Lemma drain_catalog (catalog : list genai.ModelInfo) :
  forall models : list openai.ModelResponseData.t,
    main.drain (Ok <$> catalog) models
    = Ok (models
          ++ (listed <$> filter (fun m => "embedContent" ∈ genai.SupportedGenerationMethods m)
                                catalog))%list.
Proof.
  induction catalog as [|m catalog IH]; intros models; simpl.
  - by rewrite app_nil_r.
  - rewrite filter_cons.
    destruct (main.slices_Contains (genai.SupportedGenerationMethods m) "embedContent")
      eqn:Hc; simpl.
    + apply slices_Contains_elem_of in Hc. rewrite decide_True by done.
      rewrite IH, <- app_assoc. reflexivity.
    + rewrite decide_False; [apply IH|].
      intros Hin. apply slices_Contains_elem_of in Hin. congruence.
Qed.

(** C8. For every upstream catalog (an enumeration that ends without an
    error), a GET on the models endpoint is answered with a [ModelResponse]
    of object ["list"] whose data are, in catalog order, exactly the models
    whose supported generation methods include ["embedContent"], each as a
    [ModelResponseData] with object ["model"], the upstream resource name as
    id, created 0 and owner ["google"]. *)
Theorem modelsHandler_lists_embedding_models
    (geminiClients : list genai.Client)
    (ListModels : genai.Client -> list (result genai.ModelInfo))
    (r : main.Request) (st : main.State)
    (client : genai.Client) (catalog : list genai.ModelInfo) :
  main.Method r = "GET" ->
  geminiClients !! 0%nat = Some client ->
  ListModels client = Ok <$> catalog ->
  let data :=
    listed <$> filter (fun m => "embedContent" ∈ genai.SupportedGenerationMethods m)
                      catalog in
  main.modelsHandler geminiClients ListModels r st
  = (main.requestsTotalInc r 200 st,
     Returns {| main.StatusCode := 200;
                main.ContentType := None;
                main.Payload :=
                  main.ModelsJSON {| openai.ModelResponse.Object := "list";
                                     openai.ModelResponse.Data := data |} |})
  /\ (forall d : openai.ModelResponseData.t,
        d ∈ data <->
        exists m : genai.ModelInfo,
          m ∈ catalog
          /\ "embedContent" ∈ genai.SupportedGenerationMethods m
          /\ d = {| openai.ModelResponseData.Object := "model";
                    openai.ModelResponseData.ID := genai.Name m;
                    openai.ModelResponseData.Created := 0;
                    openai.ModelResponseData.OwnedBy := "google" |}).
Proof.
  intros Hm Hclient Hlist data. split.
  - unfold main.modelsHandler. rewrite Hm.
    rewrite (index_lookup geminiClients 0 client) by (split; [lia | exact Hclient]).
    rewrite Hlist, drain_catalog. reflexivity.
  - intros d. subst data. rewrite list_elem_of_fmap. split.
    + intros (m & -> & Hin). apply list_elem_of_filter in Hin as [Hcap Hin].
      exists m. auto.
    + intros (m & Hin & Hcap & ->). exists m. split; [reflexivity|].
      apply list_elem_of_filter. auto.
Qed.

Lemma modelsHandler_lists_embedding_models_witness :
  main.modelsHandler sample.clients sample.list_models sample.get_models (sample.state 7)
  = ({| main.currentClient := 7;
        main.metrics := [main.RequestsTotal "/v1/models" "GET" "OK"] |},
     Returns {| main.StatusCode := 200;
                main.ContentType := None;
                main.Payload :=
                  main.ModelsJSON
                    {| openai.ModelResponse.Object := "list";
                       openai.ModelResponse.Data :=
                         [ {| openai.ModelResponseData.Object := "model";
                              openai.ModelResponseData.ID := "models/embedding-001";
                              openai.ModelResponseData.Created := 0;
                              openai.ModelResponseData.OwnedBy := "google" |};
                           {| openai.ModelResponseData.Object := "model";
                              openai.ModelResponseData.ID := "models/text-embedding-004";
                              openai.ModelResponseData.Created := 0;
                              openai.ModelResponseData.OwnedBy := "google" |} ] |} |}).
Proof.
  exact (proj1 (modelsHandler_lists_embedding_models
                  sample.clients sample.list_models sample.get_models (sample.state 7)
                  {| genai.APIKey := "key-a" |} sample.catalog
                  eq_refl eq_refl eq_refl)).
Defined.

(** ** Client selection *)

Lemma int32_wrap_small (x : Z) :
  - 2 ^ 31 <= x < 2 ^ 31 -> main.int32_wrap x = x.
Proof.
  intros H. unfold main.int32_wrap. rewrite Z.mod_small; pow_lia.
Qed.

Lemma int32_wrap_range (x : Z) : - 2 ^ 31 <= main.int32_wrap x < 2 ^ 31.
Proof.
  unfold main.int32_wrap.
  pose proof (Z.mod_pos_bound (x + 2 ^ 31) (2 ^ 32) ltac:(pow_lia)). pow_lia.
Qed.

(** Wrapping commutes with further additions: the counter is the number of
    increments modulo [2 ^ 32]. *)
Lemma int32_wrap_add (a b : Z) :
  main.int32_wrap (main.int32_wrap a + b) = main.int32_wrap (a + b).
Proof.
  unfold main.int32_wrap. f_equal.
  replace ((a + 2 ^ 31) mod 2 ^ 32 - 2 ^ 31 + b + 2 ^ 31)
    with ((a + 2 ^ 31) mod 2 ^ 32 + b) by lia.
  rewrite Zplus_mod_idemp_l. f_equal. lia.
Qed.

(** The counter after a selection, whatever the selection yields. *)
Lemma nextClient_counter (geminiClients : list genai.Client) (st : main.State) :
  (main.nextClient geminiClients st).1
  = {| main.currentClient := main.int32_wrap (main.currentClient st + 1);
       main.metrics := main.metrics st |}.
Proof.
  unfold main.nextClient, main.Add1.
  destruct (main.go_rem _ _) as [useIndex|msg]; [|reflexivity].
  destruct (main.index _ _); reflexivity.
Qed.

(** While the counter stays below [2 ^ 31] a selection returns the client
    at the new counter value modulo the size of the pool. *)
Lemma nextClient_in_range (geminiClients : list genai.Client) (st : main.State) :
  0 < Z.of_nat (length geminiClients) < 2 ^ 31 ->
  0 <= main.currentClient st < 2 ^ 31 - 1 ->
  exists client : genai.Client,
    geminiClients
      !! Z.to_nat ((main.currentClient st + 1) mod Z.of_nat (length geminiClients))
    = Some client
    /\ main.nextClient geminiClients st
       = ({| main.currentClient := main.currentClient st + 1;
             main.metrics := main.metrics st |},
          Returns ((main.currentClient st + 1) mod Z.of_nat (length geminiClients),
                   client)).
Proof.
  intros HN Hc.
  set (N := Z.of_nat (length geminiClients)) in *.
  pose proof (Z.mod_pos_bound (main.currentClient st + 1) N ltac:(lia)) as Hidx.
  destruct (lookup_lt_is_Some_2 geminiClients
              (Z.to_nat ((main.currentClient st + 1) mod N)) ltac:(lia))
    as [client Hclient].
  exists client. split; [exact Hclient|].
  unfold main.nextClient, main.Add1, main.go_rem.
  rewrite !int32_wrap_small by pow_lia. fold N.
  destruct (Z.eqb_spec N 0) as [H0|_]; [lia|].
  rewrite Z.rem_mod_nonneg by lia.
  rewrite (index_lookup geminiClients _ client) by (split; [lia | exact Hclient]).
  reflexivity.
Qed.

(** The round-robin property on the range where the counter does not
    overflow: [k] consecutive selections from the counter value [start]
    return the indices [(start+1) mod N, ..., (start+k) mod N]. *)
Lemma selections_round_robin (geminiClients : list genai.Client) (k : nat) :
  forall st : main.State,
    0 < Z.of_nat (length geminiClients) < 2 ^ 31 ->
    0 <= main.currentClient st ->
    main.currentClient st + Z.of_nat k < 2 ^ 31 ->
    main.selections geminiClients k st
    = ({| main.currentClient := main.currentClient st + Z.of_nat k;
          main.metrics := main.metrics st |},
       (fun j => Returns ((main.currentClient st + j) mod Z.of_nat (length geminiClients)))
         <$> seqZ 1 (Z.of_nat k)).
Proof.
  induction k as [|k IH]; intros st HN H0 Hk.
  - cbn [main.selections]. rewrite Z.add_0_r. by destruct st.
  - cbn [main.selections].
    destruct (nextClient_in_range geminiClients st HN ltac:(lia))
      as (client & _ & Hsel).
    rewrite Hsel. rewrite IH by (cbn [main.currentClient]; lia).
    cbn [main.currentClient main.metrics].
    rewrite Nat2Z.inj_succ, (seqZ_cons 1 (Z.succ (Z.of_nat k))), Z.pred_succ by lia.
    rewrite fmap_cons. f_equal; [f_equal; lia|]. f_equal.
    change (Z.succ 1) with (1 + 1). rewrite <- fmap_add_seqZ, <- list_fmap_compose.
    apply list_fmap_ext. intros _ j _. unfold compose. do 2 f_equal. lia.
Qed.

(** X14. Every selection advances the counter by one, also a selection that
    panics: after [k] of them the counter is [start + k], wrapped. *)
Lemma selections_counter (geminiClients : list genai.Client) (k : nat) :
  forall st : main.State,
    - 2 ^ 31 <= main.currentClient st < 2 ^ 31 ->
    main.currentClient (main.selections geminiClients k st).1
    = main.int32_wrap (main.currentClient st + Z.of_nat k)
    /\ length (main.selections geminiClients k st).2 = k.
Proof.
  induction k as [|k IH]; intros st Hc.
  - cbn [main.selections fst snd length]. rewrite Z.add_0_r.
    by rewrite int32_wrap_small.
  - cbn [main.selections].
    pose proof (nextClient_counter geminiClients st) as Hst1.
    destruct (main.nextClient geminiClients st) as [st1 o]. cbn [fst] in Hst1.
    specialize (IH st1).
    destruct (main.selections geminiClients k st1) as [st2 os].
    cbn [fst snd length] in *. subst st1. cbn [main.currentClient] in IH.
    destruct (IH (int32_wrap_range _)) as [-> ->].
    split; [|reflexivity].
    rewrite int32_wrap_add. f_equal. lia.
Qed.

(** C1. The claim: [K] consecutive selections from the counter value
    [start] return [(start+1) mod N, ..., (start+K) mod N], for every
    starting value. The counter is an [int32] and Go's [%] keeps the sign of
    the dividend: from [start = 2147483646], with three clients, the first
    selection returns index 1, the counter then wraps to [-2147483648] and
    the next two selections index the pool at [-2] and at [-1], which
    panics; the claimed indices are 1, 2 and 0. The counter itself stays
    consistent with three increments. *)
Theorem round_robin_breaks_at_counter_overflow :
  main.selections sample.clients 3 (sample.state 2147483646)
  = (sample.state (-2147483647),
     [ Returns 1;
       Panics "runtime error: index out of range";
       Panics "runtime error: index out of range" ])
  /\ main.int32_wrap (2147483646 + 3) = -2147483647
  /\ main.nextClient sample.clients (sample.state 2147483647)
     = (sample.state (-2147483648), Panics "runtime error: index out of range")
  /\ Z.rem (-2147483648) 3 = -2
  /\ [ (2147483646 + 1) mod 3; (2147483646 + 2) mod 3; (2147483646 + 3) mod 3 ]
     = [1; 2; 0].
Proof. repeat split. Qed.

(** ** The success path of the embeddings handler *)

Section SuccessPath.

Variable geminiClients : list genai.Client.
Variable BatchEmbedContents :
  genai.EmbeddingModel -> genai.EmbeddingBatch ->
  result genai.BatchEmbedContentsResponse.
Variables (r : main.Request) (st st1 : main.State).
Variables (useIndex : Z) (client : genai.Client).
Variable openAIReq : openai.EmbedRequest.t.
Variable geminiBatchResp : genai.BatchEmbedContentsResponse.

Hypothesis Hmethod : main.Method r = "POST".
Hypothesis Hbody : main.Body r = main.Decoded openAIReq.
Hypothesis Hselect :
  main.nextClient geminiClients st = (st1, Returns (useIndex, client)).
Hypothesis Hformat : formatAccepted openAIReq.

(** X7. A sequence of strings that the upstream embeds is answered with 200
    and the converted response, and its length is the observed batch size. *)
Lemma embeddingsHandler_sequence (texts : list string) :
  openai.EmbedRequest.Input openAIReq = Slice (String <$> texts) ->
  BatchEmbedContents
    (genai.EmbeddingModelOf client (openai.EmbedRequest.Model openAIReq))
    {| genai.batchModel := openai.EmbedRequest.Model openAIReq;
       genai.req := (fun t => [genai.Text t]) <$> texts |}
  = Ok geminiBatchResp ->
  main.encodable
    (openai.ConvertGeminiResponseToOpenAI geminiBatchResp
       (openai.EmbedRequest.Model openAIReq)) = true ->
  main.embeddingsHandler geminiClients BatchEmbedContents r st
  = (main.requestsTotalInc r 200
       (main.observe
          (main.EmbeddingBatchSize (openai.EmbedRequest.Model openAIReq)
             (Z.of_nat (length texts))) st1),
     Returns {| main.StatusCode := 200;
                main.ContentType := Some "application/json";
                main.Payload :=
                  main.EmbedJSON
                    (openai.ConvertGeminiResponseToOpenAI geminiBatchResp
                       (openai.EmbedRequest.Model openAIReq)) |}).
Proof.
  intros Hinput Hup Henc. unfold main.embeddingsHandler.
  rewrite Hmethod, Hbody, Hselect.
  change (negb (String.eqb "POST" "POST")) with false. cbv iota.
  unfold openai.ConvertOpenAIRequestToGemini.
  rewrite (proj2 (formatRejected_false openAIReq) Hformat), Hinput.
  rewrite rangeTexts_strings.
  cbn [genai.NewBatch genai.batchModel genai.req app genai.name
       genai.EmbeddingModelOf].
  rewrite Hup.
  unfold main.must_slice. cbn [assert_slice].
  rewrite Henc, length_fmap. reflexivity.
Qed.

(** X8. A single string that the converter accepts and the upstream embeds
    never reaches the encoder: the batch-size observation panics. *)
Lemma embeddingsHandler_single_string (v : string) :
  openai.EmbedRequest.Input openAIReq = String v ->
  BatchEmbedContents
    (genai.EmbeddingModelOf client (openai.EmbedRequest.Model openAIReq))
    {| genai.batchModel := openai.EmbedRequest.Model openAIReq;
       genai.req := [[genai.Text v]] |}
  = Ok geminiBatchResp ->
  main.embeddingsHandler geminiClients BatchEmbedContents r st
  = (st1, Panics "interface conversion: interface {} is string, not []interface {}").
Proof.
  intros Hinput Hup. unfold main.embeddingsHandler.
  rewrite Hmethod, Hbody, Hselect.
  change (negb (String.eqb "POST" "POST")) with false. cbv iota.
  unfold openai.ConvertOpenAIRequestToGemini.
  rewrite (proj2 (formatRejected_false openAIReq) Hformat), Hinput.
  unfold genai.EmbeddingModelOf in *.
  unfold genai.AddContent, genai.NewBatch.
  cbn [genai.batchModel genai.req app genai.name].
  rewrite Hup. reflexivity.
Qed.

End SuccessPath.

(** ** The handlers on the sample data *)

Example selections_from_zero :
  main.selections sample.clients 5 (sample.state 0)
  = (sample.state 5, [Returns 1; Returns 2; Returns 0; Returns 1; Returns 2]).
Proof. reflexivity. Qed.

Example single_client_always_selected :
  main.selections [ {| genai.APIKey := "only" |} ] 3 (sample.state 2147483646)
  = (sample.state (-2147483647), [Returns 0; Returns 0; Returns 0]).
Proof. reflexivity. Qed.

Example embeddingsHandler_two_texts :
  main.embeddingsHandler sample.clients sample.upstream
    (sample.post (sample.request (Slice [String "a"; String "b"]) "float"))
    (sample.state 0)
  = ({| main.currentClient := 1;
        main.metrics :=
          [ main.EmbeddingBatchSize "text-embedding-004" 2;
            main.RequestsTotal "/v1/embeddings" "POST" "OK" ] |},
     Returns
       {| main.StatusCode := 200;
          main.ContentType := Some "application/json";
          main.Payload :=
            main.EmbedJSON
              {| openai.EmbedResponse.Object := "list";
                 openai.EmbedResponse.Data :=
                   [ {| openai.EmbedResponseData.Object := "embedding";
                        openai.EmbedResponseData.Embedding := [0.5%float; 0.25%float];
                        openai.EmbedResponseData.Index := 0 |};
                     {| openai.EmbedResponseData.Object := "embedding";
                        openai.EmbedResponseData.Embedding := [0.5%float; 0.25%float];
                        openai.EmbedResponseData.Index := 1 |} ];
                 openai.EmbedResponse.Model := "text-embedding-004";
                 openai.EmbedResponse.Usage :=
                   {| openai.Usage.PromptTokens := 0;
                      openai.Usage.TotalTokens := 0 |} |} |}).
Proof. reflexivity. Qed.

Example embeddingsHandler_wrong_method :
  main.embeddingsHandler sample.clients sample.upstream
    {| main.Method := "GET"; main.Path := "/v1/embeddings";
       main.Body := main.Decoded (sample.request (String "hello") "") |}
    (sample.state 0)
  = ({| main.currentClient := 0;
        main.metrics :=
          [ main.RequestsTotal "/v1/embeddings" "GET" "Method Not Allowed" ] |},
     Returns (main.httpError "Method Not Allowed" 405)).
Proof. reflexivity. Qed.

Example embeddingsHandler_upstream_failure :
  main.embeddingsHandler sample.clients (fun _ _ => Err "quota exceeded")
    (sample.post (sample.request (Slice [String "a"]) "")) (sample.state 0)
  = ({| main.currentClient := 1;
        main.metrics :=
          [ main.RequestsTotal "/v1/embeddings" "POST" "Internal Server Error" ] |},
     Returns (main.httpError "Internal Server Error" 500)).
Proof. reflexivity. Qed.

Example modelsHandler_enumeration_error :
  main.modelsHandler sample.clients
    (fun _ => [Ok {| genai.Name := "models/embedding-001";
                     genai.SupportedGenerationMethods := ["embedContent"] |};
               Err "connection reset"])
    sample.get_models (sample.state 0)
  = ({| main.currentClient := 0;
        main.metrics :=
          [ main.RequestsTotal "/v1/models" "GET" "Internal Server Error" ] |},
     Returns (main.httpError "Internal Server Error" 500)).
Proof. reflexivity. Qed.

(** * Further properties of the code *)

(** ** The request converter, completely *)

Lemma slice_texts_fmap (texts : list string) :
  slice_texts (String <$> texts) = Some texts.
Proof.
  induction texts as [|t texts IH]; [reflexivity|].
  rewrite fmap_cons. cbn [slice_texts as_text]. by rewrite IH.
Qed.

Lemma slice_texts_Some (v : list any) (texts : list string) :
  slice_texts v = Some texts <-> v = String <$> texts.
Proof.
  split; [|intros ->; apply slice_texts_fmap].
  revert texts. induction v as [|x v IH]; intros texts H; cbn [slice_texts] in H.
  - by inversion H.
  - destruct x; cbn [as_text] in H; try discriminate.
    destruct (slice_texts v) as [ts|]; [|discriminate].
    inversion H; subst. rewrite fmap_cons. f_equal. by apply IH.
Qed.

Lemma slice_texts_None (v : list any) :
  slice_texts v = None -> existsb (fun x => negb (is_string x)) v = true.
Proof.
  induction v as [|x v IH]; cbn [slice_texts]; [discriminate|].
  destruct x; cbn [as_text existsb is_string negb orb]; try reflexivity.
  destruct (slice_texts v); [discriminate|]. intros _. by apply IH.
Qed.

(** What the conversion returns, for every request. *)
Lemma ConvertOpenAIRequestToGemini_spec
    (openAIReq : openai.EmbedRequest.t) (model : genai.EmbeddingModel) :
  openai.ConvertOpenAIRequestToGemini openAIReq model
  = if openai.formatRejected openAIReq then Err openai.errUnsupportedFormat
    else match input_texts (openai.EmbedRequest.Input openAIReq) with
         | Some texts => Ok (text_batch model texts)
         | None => Err (rejection_message (openai.EmbedRequest.Input openAIReq))
         end.
Proof.
  unfold openai.ConvertOpenAIRequestToGemini.
  destruct (openai.formatRejected openAIReq); [reflexivity|].
  destruct (openai.EmbedRequest.Input openAIReq) as [| | |t|v|]; try reflexivity.
  cbn [input_texts rejection_message].
  destruct (slice_texts v) as [texts|] eqn:Hv.
  - apply slice_texts_Some in Hv. subst v. by rewrite rangeTexts_strings.
  - apply rangeTexts_non_string. by apply slice_texts_None.
Qed.

(** X1. The conversion returns a batch exactly for the requests whose format
    is accepted and whose input is one string or a sequence of strings, and
    the batch is then one single-text content per string, in order, under
    the name of the model. *)
Theorem conversion_accepts_exactly
    (openAIReq : openai.EmbedRequest.t) (model : genai.EmbeddingModel)
    (geminiBatchReq : genai.EmbeddingBatch) :
  openai.ConvertOpenAIRequestToGemini openAIReq model = Ok geminiBatchReq
  <-> formatAccepted openAIReq
      /\ ((exists t : string,
             openai.EmbedRequest.Input openAIReq = String t
             /\ geminiBatchReq
                = {| genai.batchModel := genai.name model;
                     genai.req := [[genai.Text t]] |})
          \/ (exists texts : list string,
                openai.EmbedRequest.Input openAIReq = Slice (String <$> texts)
                /\ geminiBatchReq
                   = {| genai.batchModel := genai.name model;
                        genai.req := (fun t => [genai.Text t]) <$> texts |})).
Proof.
  rewrite ConvertOpenAIRequestToGemini_spec, <- formatRejected_false.
  destruct (openai.formatRejected openAIReq).
  { split; [discriminate|]. by intros [? _]. }
  split.
  - destruct (input_texts _) as [texts|] eqn:Hin; [|discriminate].
    intros [= <-]. split; [reflexivity|].
    destruct (openai.EmbedRequest.Input openAIReq) as [| | |t|v|];
      try discriminate.
    + left. exists t. injection Hin as <-. done.
    + right. exists texts. split; [|reflexivity].
      f_equal. by apply slice_texts_Some.
  - intros (_ & [(t & -> & ->) | (texts & -> & ->)]); [reflexivity|].
    cbn [input_texts]. by rewrite slice_texts_fmap.
Qed.

(** X2. The conversion has six error messages: the format error, and the
    unsupported-input-type error for [<nil>], [bool], [float64], an object
    and [string]; the last one is what every rejected sequence gets, and no
    message ever names the sequence type. *)
Theorem conversion_error_messages
    (openAIReq : openai.EmbedRequest.t) (model : genai.EmbeddingModel) (e : error) :
  openai.ConvertOpenAIRequestToGemini openAIReq model = Err e ->
  e ∈ [ "unsupported encoding format";
        "unsupported input type: <nil>";
        "unsupported input type: bool";
        "unsupported input type: float64";
        "unsupported input type: map[string]interface {}";
        "unsupported input type: string" ]
  /\ (is_slice (openai.EmbedRequest.Input openAIReq) = true ->
      formatAccepted openAIReq ->
      e = "unsupported input type: string").
Proof.
  rewrite ConvertOpenAIRequestToGemini_spec, <- formatRejected_false.
  destruct (openai.formatRejected openAIReq).
  { intros [= <-]. split; [apply list_elem_of_here|].
    intros _ Hacc. discriminate. }
  destruct (input_texts _) as [texts|] eqn:Hin; [discriminate|].
  intros [= <-].
  destruct (openai.EmbedRequest.Input openAIReq);
    cbn [rejection_message typeName is_slice]; split;
    try discriminate; try reflexivity; try (intros; reflexivity);
    repeat (first [apply list_elem_of_here | apply list_elem_of_further]).
Qed.

Lemma conversion_error_messages_witness :
  "unsupported input type: string"
  ∈ [ "unsupported encoding format";
      "unsupported input type: <nil>";
      "unsupported input type: bool";
      "unsupported input type: float64";
      "unsupported input type: map[string]interface {}";
      "unsupported input type: string" ]
  /\ (is_slice (Slice [Slice [String "a"]]) = true ->
      formatAccepted (sample.request (Slice [Slice [String "a"]]) "") ->
      "unsupported input type: string" = "unsupported input type: string").
Proof.
  exact (conversion_error_messages
           (sample.request (Slice [Slice [String "a"]]) "") sample.model
           "unsupported input type: string" eq_refl).
Defined.

(** X3. Of a request the conversion reads the input and the format only, of
    the model its name only: [model], [dimensions] and [user] of the request
    have no effect on the batch or on the error. *)
Theorem conversion_reads_input_and_format
    (openAIReq openAIReq' : openai.EmbedRequest.t)
    (model model' : genai.EmbeddingModel) :
  openai.EmbedRequest.Input openAIReq = openai.EmbedRequest.Input openAIReq' ->
  openai.EmbedRequest.EncodingFormat openAIReq
  = openai.EmbedRequest.EncodingFormat openAIReq' ->
  genai.name model = genai.name model' ->
  openai.ConvertOpenAIRequestToGemini openAIReq model
  = openai.ConvertOpenAIRequestToGemini openAIReq' model'.
Proof.
  intros Hinput Hformat Hname.
  rewrite !ConvertOpenAIRequestToGemini_spec.
  unfold openai.formatRejected, text_batch. by rewrite Hinput, Hformat, Hname.
Qed.

Lemma conversion_reads_input_and_format_witness :
  openai.ConvertOpenAIRequestToGemini
    {| openai.EmbedRequest.Input := Slice [String "a"; String "b"];
       openai.EmbedRequest.Model := "text-embedding-004";
       openai.EmbedRequest.EncodingFormat := "float";
       openai.EmbedRequest.Dimensions := 256;
       openai.EmbedRequest.User := "alice" |}
    (genai.EmbeddingModelOf {| genai.APIKey := "key-a" |} "text-embedding-004")
  = openai.ConvertOpenAIRequestToGemini
      {| openai.EmbedRequest.Input := Slice [String "a"; String "b"];
         openai.EmbedRequest.Model := "another-model";
         openai.EmbedRequest.EncodingFormat := "float";
         openai.EmbedRequest.Dimensions := 0;
         openai.EmbedRequest.User := "" |}
      (genai.EmbeddingModelOf {| genai.APIKey := "key-b" |} "text-embedding-004").
Proof.
  apply conversion_reads_input_and_format; reflexivity.
Defined.

(** ** The response converter *)

(** X4. The response conversion loses nothing of the upstream result: the
    vectors read back from the data of the response, in order, are the
    embeddings of the result. *)
Theorem response_conversion_lossless
    (geminiBatchResp : genai.BatchEmbedContentsResponse) (model : string) :
  {| genai.Embeddings :=
       (fun d => {| genai.Values := openai.EmbedResponseData.Embedding d |})
         <$> openai.EmbedResponse.Data
               (openai.ConvertGeminiResponseToOpenAI geminiBatchResp model) |}
  = geminiBatchResp.
Proof.
  rewrite ConvertGeminiResponseToOpenAI_Data.
  destruct geminiBatchResp as [embeddings]. cbn [genai.Embeddings]. f_equal.
  rewrite fmap_imap. unfold compose.
  induction embeddings as [|[values] es IH] using rev_ind; [reflexivity|].
  rewrite imap_app, IH. reflexivity.
Qed.

(** ** The embeddings handler, branch by branch *)

Lemma must_slice_Returns (v : any) (items : list any) :
  main.must_slice v = Returns items <-> v = Slice items.
Proof.
  unfold main.must_slice. destruct v; cbn [assert_slice]; split;
    intros H; try discriminate; by inversion H.
Qed.

(** X5. An invocation of the embeddings handler takes a slot of the rotation
    exactly when the method is POST and the body decodes: it then advances
    the counter by one, with wrap-around, whatever becomes of the request
    afterwards (rejected, failed upstream, answered, panicked); a request
    stopped before the decoding leaves the counter alone. *)
Theorem rotation_slot_taken_iff_decoded
    (geminiClients : list genai.Client)
    (BatchEmbedContents :
       genai.EmbeddingModel -> genai.EmbeddingBatch ->
       result genai.BatchEmbedContentsResponse)
    (r : main.Request) (st : main.State) :
  main.currentClient
    (main.embeddingsHandler geminiClients BatchEmbedContents r st).1
  = if String.eqb (main.Method r) "POST" && is_decoded (main.Body r)
    then main.int32_wrap (main.currentClient st + 1)
    else main.currentClient st.
Proof.
  unfold main.embeddingsHandler.
  destruct (String.eqb (main.Method r) "POST"); cbn [negb andb]; [|reflexivity].
  destruct (main.Body r) as [| |openAIReq]; cbn [is_decoded]; try reflexivity.
  pose proof (nextClient_counter geminiClients st) as Hst1.
  destruct (main.nextClient geminiClients st) as [st1 [[useIndex client]|msg]];
    cbn [fst] in Hst1; subst st1; [|reflexivity].
  destruct (openai.ConvertOpenAIRequestToGemini _ _); [|reflexivity].
  destruct (BatchEmbedContents _ _); [|reflexivity].
  destruct (main.must_slice _); [|reflexivity].
  destruct (main.encodable _); reflexivity.
Qed.

(** X6. The embeddings handler answers with status 200 only a POST whose
    body decodes to a request with an accepted format and a sequence of
    strings as input, for which the selection returned a client and that
    client's upstream call, on the batch of these strings under the
    requested model, succeeded; the body is then the converted result (or
    nothing, when the result cannot be encoded). A single-string input is
    never answered with 200. *)
Theorem ok_only_for_sequences
    (geminiClients : list genai.Client)
    (BatchEmbedContents :
       genai.EmbeddingModel -> genai.EmbeddingBatch ->
       result genai.BatchEmbedContentsResponse)
    (r : main.Request) (st st' : main.State) (resp : main.Response) :
  main.embeddingsHandler geminiClients BatchEmbedContents r st = (st', Returns resp) ->
  main.StatusCode resp = 200 ->
  exists (openAIReq : openai.EmbedRequest.t) (texts : list string)
         (st1 : main.State) (useIndex : Z) (client : genai.Client)
         (geminiBatchResp : genai.BatchEmbedContentsResponse),
    main.Method r = "POST"
    /\ main.Body r = main.Decoded openAIReq
    /\ formatAccepted openAIReq
    /\ openai.EmbedRequest.Input openAIReq = Slice (String <$> texts)
    /\ main.nextClient geminiClients st = (st1, Returns (useIndex, client))
    /\ BatchEmbedContents
         (genai.EmbeddingModelOf client (openai.EmbedRequest.Model openAIReq))
         {| genai.batchModel := openai.EmbedRequest.Model openAIReq;
            genai.req := (fun t => [genai.Text t]) <$> texts |}
       = Ok geminiBatchResp
    /\ main.ContentType resp = Some "application/json"
    /\ main.Payload resp
       = if main.encodable
              (openai.ConvertGeminiResponseToOpenAI geminiBatchResp
                 (openai.EmbedRequest.Model openAIReq))
         then main.EmbedJSON
                (openai.ConvertGeminiResponseToOpenAI geminiBatchResp
                   (openai.EmbedRequest.Model openAIReq))
         else main.NoBody.
Proof.
  unfold main.embeddingsHandler.
  destruct (String.eqb_spec (main.Method r) "POST") as [Hm|_]; cbn [negb];
    [|intros [= _ <-]; discriminate].
  destruct (main.Body r) as [| |openAIReq] eqn:Hb;
    try (intros [= _ <-]; discriminate).
  destruct (main.nextClient geminiClients st) as [st1 [[useIndex client]|msg]]
    eqn:Hsel; [|discriminate].
  rewrite ConvertOpenAIRequestToGemini_spec.
  destruct (openai.formatRejected openAIReq) eqn:Hrej;
    [intros [= _ <-]; discriminate|].
  destruct (input_texts _) as [texts|] eqn:Hin;
    [|intros [= _ <-]; discriminate].
  destruct (BatchEmbedContents _ _) as [geminiBatchResp|e] eqn:Hup;
    [|intros [= _ <-]; discriminate].
  destruct (main.must_slice _) as [items|msg] eqn:Hitems; [|discriminate].
  apply must_slice_Returns in Hitems. rewrite Hitems in Hin.
  cbn [input_texts] in Hin. apply slice_texts_Some in Hin. subst items.
  intros Hret _.
  exists openAIReq, texts, st1, useIndex, client, geminiBatchResp.
  repeat split; try done.
  - by apply formatRejected_false.
  - destruct (main.encodable _); by inversion Hret.
  - destruct (main.encodable _); by inversion Hret.
Qed.

Lemma ok_only_for_sequences_witness :
  exists (openAIReq : openai.EmbedRequest.t) (texts : list string)
         (st1 : main.State) (useIndex : Z) (client : genai.Client)
         (geminiBatchResp : genai.BatchEmbedContentsResponse),
    main.Method (sample.post (sample.request (Slice [String "a"; String "b"]) ""))
    = "POST"
    /\ main.Body (sample.post (sample.request (Slice [String "a"; String "b"]) ""))
       = main.Decoded openAIReq
    /\ formatAccepted openAIReq
    /\ openai.EmbedRequest.Input openAIReq = Slice (String <$> texts)
    /\ main.nextClient sample.clients (sample.state 0)
       = (st1, Returns (useIndex, client))
    /\ sample.upstream
         (genai.EmbeddingModelOf client (openai.EmbedRequest.Model openAIReq))
         {| genai.batchModel := openai.EmbedRequest.Model openAIReq;
            genai.req := (fun t => [genai.Text t]) <$> texts |}
       = Ok geminiBatchResp
    /\ Some "application/json" = Some "application/json"
    /\ main.EmbedJSON
         (openai.ConvertGeminiResponseToOpenAI
            {| genai.Embeddings :=
                 [sample.vector 0.5%float; sample.vector 0.5%float] |}
            "text-embedding-004")
       = if main.encodable
              (openai.ConvertGeminiResponseToOpenAI geminiBatchResp
                 (openai.EmbedRequest.Model openAIReq))
         then main.EmbedJSON
                (openai.ConvertGeminiResponseToOpenAI geminiBatchResp
                   (openai.EmbedRequest.Model openAIReq))
         else main.NoBody.
Proof.
  exact (ok_only_for_sequences sample.clients sample.upstream
           (sample.post (sample.request (Slice [String "a"; String "b"]) ""))
           (sample.state 0) _ _ eq_refl eq_refl).
Defined.

(** The witness of X7, [embeddingsHandler_sequence]: a POST whose body decodes to
    an accepted format and a sequence of [N] strings, embedded by the
    upstream into an encodable result, is answered with 200, the JSON
    content type and the converted result; [N] is observed as the batch
    size and the request is counted as OK. *)
Lemma embeddingsHandler_sequence_witness :
  main.embeddingsHandler sample.clients sample.upstream
    (sample.post (sample.request (Slice [String "a"; String "b"; String "c"]) ""))
    (sample.state 1)
  = (main.requestsTotalInc
       (sample.post (sample.request (Slice [String "a"; String "b"; String "c"]) ""))
       200
       (main.observe (main.EmbeddingBatchSize "text-embedding-004" 3)
          (sample.state 2)),
     Returns
       {| main.StatusCode := 200;
          main.ContentType := Some "application/json";
          main.Payload :=
            main.EmbedJSON
              (openai.ConvertGeminiResponseToOpenAI
                 {| genai.Embeddings :=
                      [ sample.vector 0.5%float; sample.vector 0.5%float;
                        sample.vector 0.5%float ] |}
                 "text-embedding-004") |}).
Proof.
  exact (embeddingsHandler_sequence sample.clients sample.upstream
           (sample.post
              (sample.request (Slice [String "a"; String "b"; String "c"]) ""))
           (sample.state 1) (sample.state 2) 2 {| genai.APIKey := "key-c" |}
           (sample.request (Slice [String "a"; String "b"; String "c"]) "")
           {| genai.Embeddings :=
                [ sample.vector 0.5%float; sample.vector 0.5%float;
                  sample.vector 0.5%float ] |}
           eq_refl eq_refl eq_refl (or_introl eq_refl)
           ["a"; "b"; "c"] eq_refl eq_refl eq_refl).
Defined.

(** The witness of X8, [embeddingsHandler_single_string]: a POST whose body decodes
    to an accepted format and a single string, which the upstream embeds,
    panics at the batch-size observation; the counter stays advanced,
    nothing is written and nothing is counted. *)
Lemma embeddingsHandler_single_string_witness :
  main.embeddingsHandler sample.clients sample.upstream
    (sample.post (sample.request (String "hello") "float")) (sample.state 1)
  = (sample.state 2,
     Panics "interface conversion: interface {} is string, not []interface {}").
Proof.
  exact (embeddingsHandler_single_string sample.clients sample.upstream
           (sample.post (sample.request (String "hello") "float"))
           (sample.state 1) (sample.state 2) 2 {| genai.APIKey := "key-c" |}
           (sample.request (String "hello") "float")
           {| genai.Embeddings := [sample.vector 0.5%float] |}
           eq_refl eq_refl eq_refl (or_intror eq_refl)
           "hello" eq_refl eq_refl).
Defined.

(** *** A result the encoder refuses *)

Lemma forallb_imap_entry (P : list float32 -> bool)
    (embeddings : list genai.ContentEmbedding) (i : Z) :
  forallb (fun d => P (openai.EmbedResponseData.Embedding d))
          (imap (fun k e => entry (i + Z.of_nat k) e) embeddings)
  = forallb (fun e => P (genai.Values e)) embeddings.
Proof.
  revert i. induction embeddings as [|e es IH]; intros i; [reflexivity|].
  rewrite imap_cons. cbn [forallb entry openai.EmbedResponseData.Embedding].
  f_equal. rewrite <- (IH (i + 1)). f_equal. apply imap_ext. intros k x _.
  unfold compose. f_equal. lia.
Qed.

Lemma encodable_ConvertGeminiResponseToOpenAI
    (geminiBatchResp : genai.BatchEmbedContentsResponse) (model : string) :
  main.encodable (openai.ConvertGeminiResponseToOpenAI geminiBatchResp model)
  = forallb (fun e => forallb main.float_encodable (genai.Values e))
            (genai.Embeddings geminiBatchResp).
Proof.
  unfold main.encodable. rewrite ConvertGeminiResponseToOpenAI_Data.
  apply (forallb_imap_entry (forallb main.float_encodable) _ 0).
Qed.

Lemma not_finite_refused (values : list float32) :
  Exists not_finite values -> forallb main.float_encodable values = false.
Proof.
  induction 1 as [x values [Hnan|Hinf]|x values _ IH]; cbn [forallb].
  - unfold main.float_encodable. by rewrite Hnan.
  - unfold main.float_encodable. rewrite Hinf. by rewrite orb_true_r.
  - rewrite IH. apply andb_false_r.
Qed.

Lemma unencodable_result
    (geminiBatchResp : genai.BatchEmbedContentsResponse) (model : string) :
  Exists (fun e => Exists not_finite (genai.Values e))
         (genai.Embeddings geminiBatchResp) ->
  main.encodable (openai.ConvertGeminiResponseToOpenAI geminiBatchResp model) = false.
Proof.
  rewrite encodable_ConvertGeminiResponseToOpenAI.
  induction 1 as [e es He|e es _ IH]; cbn [forallb].
  - by rewrite (not_finite_refused _ He).
  - rewrite IH. apply andb_false_r.
Qed.

(** X9. When the upstream result of an accepted sequence holds a NaN or an
    infinite value, the encoder refuses it before anything is written: the
    client gets status 200 with the JSON content type and no body, while
    the request is counted as an Internal Server Error (and its batch size
    is observed). *)
Theorem non_finite_result_answered_empty
    (geminiClients : list genai.Client)
    (BatchEmbedContents :
       genai.EmbeddingModel -> genai.EmbeddingBatch ->
       result genai.BatchEmbedContentsResponse)
    (r : main.Request) (st st1 : main.State)
    (useIndex : Z) (client : genai.Client)
    (openAIReq : openai.EmbedRequest.t) (texts : list string)
    (geminiBatchResp : genai.BatchEmbedContentsResponse) :
  main.Method r = "POST" ->
  main.Body r = main.Decoded openAIReq ->
  main.nextClient geminiClients st = (st1, Returns (useIndex, client)) ->
  formatAccepted openAIReq ->
  openai.EmbedRequest.Input openAIReq = Slice (String <$> texts) ->
  BatchEmbedContents
    (genai.EmbeddingModelOf client (openai.EmbedRequest.Model openAIReq))
    {| genai.batchModel := openai.EmbedRequest.Model openAIReq;
       genai.req := (fun t => [genai.Text t]) <$> texts |}
  = Ok geminiBatchResp ->
  Exists (fun e => Exists not_finite (genai.Values e))
         (genai.Embeddings geminiBatchResp) ->
  main.embeddingsHandler geminiClients BatchEmbedContents r st
  = (main.requestsTotalInc r 500
       (main.observe
          (main.EmbeddingBatchSize (openai.EmbedRequest.Model openAIReq)
             (Z.of_nat (length texts))) st1),
     Returns {| main.StatusCode := 200;
                main.ContentType := Some "application/json";
                main.Payload := main.NoBody |}).
Proof.
  intros Hm Hb Hsel Hformat Hinput Hup Hnan.
  unfold main.embeddingsHandler. rewrite Hm, Hb, Hsel.
  change (negb (String.eqb "POST" "POST")) with false. cbv iota.
  rewrite ConvertOpenAIRequestToGemini_spec.
  rewrite (proj2 (formatRejected_false openAIReq) Hformat), Hinput.
  cbn [input_texts]. rewrite slice_texts_fmap.
  unfold text_batch, genai.EmbeddingModelOf in *. cbn [genai.name].
  rewrite Hup. unfold main.must_slice. cbn [assert_slice].
  rewrite (unencodable_result _ _ Hnan), length_fmap. reflexivity.
Qed.

Lemma non_finite_result_answered_empty_witness :
  main.embeddingsHandler sample.clients
    (fun _ _ => Ok {| genai.Embeddings := [ {| genai.Values := [0.5%float; nan] |} ] |})
    (sample.post (sample.request (Slice [String "a"]) "")) (sample.state 0)
  = ({| main.currentClient := 1;
        main.metrics :=
          [ main.EmbeddingBatchSize "text-embedding-004" 1;
            main.RequestsTotal "/v1/embeddings" "POST" "Internal Server Error" ] |},
     Returns {| main.StatusCode := 200;
                main.ContentType := Some "application/json";
                main.Payload := main.NoBody |}).
Proof.
  refine (non_finite_result_answered_empty sample.clients
            (fun _ _ =>
               Ok {| genai.Embeddings := [ {| genai.Values := [0.5%float; nan] |} ] |})
            (sample.post (sample.request (Slice [String "a"]) ""))
            (sample.state 0) (sample.state 1) 1 {| genai.APIKey := "key-b" |}
            (sample.request (Slice [String "a"]) "") ["a"]
            {| genai.Embeddings := [ {| genai.Values := [0.5%float; nan] |} ] |}
            eq_refl eq_refl eq_refl (or_introl eq_refl) eq_refl eq_refl _).
  apply Exists_cons_hd. cbn [genai.Values].
  apply Exists_cons_tl, Exists_cons_hd. left. reflexivity.
Defined.

(** *** What the request counter sees *)

Lemma nextClient_metrics (geminiClients : list genai.Client) (st : main.State) :
  main.metrics (main.nextClient geminiClients st).1 = main.metrics st.
Proof. by rewrite nextClient_counter. Qed.

Lemma requests_total_app (ms ms' : list main.metric) :
  requests_total (ms ++ ms') = (requests_total ms ++ requests_total ms')%list.
Proof.
  induction ms as [|[path method status|model size] ms IH];
    cbn [app requests_total]; by rewrite ?IH.
Qed.

Lemma batch_sizes_app (ms ms' : list main.metric) :
  batch_sizes (ms ++ ms') = (batch_sizes ms ++ batch_sizes ms')%list.
Proof.
  induction ms as [|[path method status|model size] ms IH];
    cbn [app batch_sizes]; by rewrite ?IH.
Qed.

(** X10. In the request counter, every invocation of the embeddings handler
    that writes a response adds exactly one observation, under the path and
    the method of the request, and the earlier observations are kept; its
    label is the text of the status written, except for the refused
    encoding (X9). An invocation that panics adds none. In the batch-size
    histogram an invocation adds at most one observation, and none unless
    it writes a 200. *)
Theorem answered_requests_counted_once
    (geminiClients : list genai.Client)
    (BatchEmbedContents :
       genai.EmbeddingModel -> genai.EmbeddingBatch ->
       result genai.BatchEmbedContentsResponse)
    (r : main.Request) (st : main.State) :
  match main.embeddingsHandler geminiClients BatchEmbedContents r st with
  | (st', Panics _) =>
      requests_total (main.metrics st') = requests_total (main.metrics st)
      /\ batch_sizes (main.metrics st') = batch_sizes (main.metrics st)
  | (st', Returns resp) =>
      (exists label : string,
          requests_total (main.metrics st')
          = (requests_total (main.metrics st)
             ++ [main.RequestsTotal (main.Path r) (main.Method r) label])%list
          /\ (label = main.StatusText (main.StatusCode resp)
              \/ label = "Internal Server Error"
                 /\ main.StatusCode resp = 200
                 /\ main.Payload resp = main.NoBody))
      /\ (batch_sizes (main.metrics st') = batch_sizes (main.metrics st)
          \/ main.StatusCode resp = 200
             /\ exists (model : string) (size : Z),
                  batch_sizes (main.metrics st')
                  = (batch_sizes (main.metrics st)
                     ++ [main.EmbeddingBatchSize model size])%list)
  end.
Proof.
  unfold main.embeddingsHandler.
  destruct (String.eqb (main.Method r) "POST"); cbn [negb].
  2:{ cbn [main.requestsTotalInc main.observe main.metrics].
      rewrite requests_total_app, batch_sizes_app, app_nil_r.
      split; [eexists; split; [reflexivity | left; reflexivity] | by left]. }
  destruct (main.Body r) as [| |openAIReq].
  1,2: cbn [main.requestsTotalInc main.observe main.metrics];
       rewrite requests_total_app, batch_sizes_app, app_nil_r;
       (split; [eexists; split; [reflexivity | left; reflexivity] | by left]).
  pose proof (nextClient_metrics geminiClients st) as Hmet.
  destruct (main.nextClient geminiClients st) as [st1 [[useIndex client]|msg]];
    cbn [fst] in Hmet; [|by rewrite Hmet].
  destruct (openai.ConvertOpenAIRequestToGemini _ _).
  2:{ cbn [main.requestsTotalInc main.observe main.metrics].
      rewrite Hmet, requests_total_app, batch_sizes_app, app_nil_r.
      split; [eexists; split; [reflexivity | left; reflexivity] | by left]. }
  destruct (BatchEmbedContents _ _).
  2:{ cbn [main.requestsTotalInc main.observe main.metrics].
      rewrite Hmet, requests_total_app, batch_sizes_app, app_nil_r.
      split; [eexists; split; [reflexivity | left; reflexivity] | by left]. }
  destruct (main.must_slice _); [|by rewrite Hmet].
  destruct (main.encodable _);
    cbn [main.requestsTotalInc main.observe main.metrics main.StatusCode
         main.Payload];
    rewrite Hmet, !requests_total_app, !batch_sizes_app;
    cbn [requests_total batch_sizes]; rewrite !app_nil_r.
  - split; [eexists; split; [reflexivity | left; reflexivity]|].
    right. split; [reflexivity | eauto].
  - split; [eexists; split; [reflexivity | right; done]|].
    right. split; [reflexivity | eauto].
Qed.

(** ** The models handler *)

(** X11. Listing the models takes no slot of the rotation and does not
    depend on it: the counter is left as it was and the answer is the same
    from every state. A listing that writes a response is counted once,
    under the text of the status written. *)
Theorem modelsHandler_leaves_rotation
    (geminiClients : list genai.Client)
    (ListModels : genai.Client -> list (result genai.ModelInfo))
    (r : main.Request) (st : main.State) :
  main.currentClient (main.modelsHandler geminiClients ListModels r st).1
  = main.currentClient st
  /\ (forall st0 : main.State,
        (main.modelsHandler geminiClients ListModels r st0).2
        = (main.modelsHandler geminiClients ListModels r st).2)
  /\ match main.modelsHandler geminiClients ListModels r st with
     | (st', Panics _) => main.metrics st' = main.metrics st
     | (st', Returns resp) =>
         main.metrics st'
         = (main.metrics st
            ++ [main.RequestsTotal (main.Path r) (main.Method r)
                  (main.StatusText (main.StatusCode resp))])%list
     end.
Proof.
  unfold main.modelsHandler.
  destruct (String.eqb (main.Method r) "GET"); cbn [negb]; [|by repeat split].
  destruct (main.index geminiClients 0) as [client|msg]; [|by repeat split].
  destruct (main.drain (ListModels client) []); by repeat split.
Qed.

Lemma drain_error (ms : list genai.ModelInfo) (e : error)
    (rest : list (result genai.ModelInfo)) :
  forall models : list openai.ModelResponseData.t,
    main.drain ((Ok <$> ms) ++ Err e :: rest) models = Err e.
Proof.
  induction ms as [|m ms IH]; intros models; [reflexivity|].
  rewrite fmap_cons. cbn [app main.drain].
  destruct (negb _); apply IH.
Qed.

(** X12. The listing is all or nothing: when the enumeration fails, after
    however many models, a GET is answered with 500 and the models already
    collected are dropped; what the iterator would yield after the error is
    never asked for. *)
Theorem listing_all_or_nothing
    (geminiClients : list genai.Client)
    (ListModels : genai.Client -> list (result genai.ModelInfo))
    (r : main.Request) (st : main.State) (client : genai.Client)
    (ms : list genai.ModelInfo) (e : error) (rest : list (result genai.ModelInfo)) :
  main.Method r = "GET" ->
  geminiClients !! 0%nat = Some client ->
  ListModels client = ((Ok <$> ms) ++ Err e :: rest)%list ->
  main.modelsHandler geminiClients ListModels r st
  = (main.requestsTotalInc r 500 st,
     Returns (main.httpError "Internal Server Error" 500)).
Proof.
  intros Hm Hclient Hlist. unfold main.modelsHandler. rewrite Hm.
  rewrite (index_lookup geminiClients 0 client) by (split; [lia | exact Hclient]).
  rewrite Hlist, drain_error. reflexivity.
Qed.

Lemma listing_all_or_nothing_witness :
  main.modelsHandler sample.clients
    (fun _ => (Ok <$> sample.catalog) ++ [Err "connection reset"; Err "again"])%list
    sample.get_models (sample.state 3)
  = ({| main.currentClient := 3;
        main.metrics :=
          [main.RequestsTotal "/v1/models" "GET" "Internal Server Error"] |},
     Returns {| main.StatusCode := 500;
                main.ContentType := Some "text/plain; charset=utf-8";
                main.Payload := main.ErrorText "Internal Server Error" |}).
Proof.
  exact (listing_all_or_nothing sample.clients
           (fun _ => (Ok <$> sample.catalog) ++ [Err "connection reset"; Err "again"])%list
           sample.get_models (sample.state 3) {| genai.APIKey := "key-a" |}
           sample.catalog "connection reset" [Err "again"]
           eq_refl eq_refl eq_refl).
Defined.

(** ** The rotation *)

(** X13. While the counter does not overflow, [k] consecutive selections
    from the counter value [start] return the indices
    [(start+1) mod N, ..., (start+k) mod N], none of them panics, and the
    counter ends at [start + k]. *)
Theorem round_robin_without_overflow
    (geminiClients : list genai.Client) (k : nat) (st : main.State) :
  0 < Z.of_nat (length geminiClients) < 2 ^ 31 ->
  0 <= main.currentClient st ->
  main.currentClient st + Z.of_nat k < 2 ^ 31 ->
  main.selections geminiClients k st
  = ({| main.currentClient := main.currentClient st + Z.of_nat k;
        main.metrics := main.metrics st |},
     (fun j => Returns ((main.currentClient st + j) mod Z.of_nat (length geminiClients)))
       <$> seqZ 1 (Z.of_nat k))
  /\ Forall (fun o => exists i : Z,
                 o = Returns i /\ 0 <= i < Z.of_nat (length geminiClients))
            (main.selections geminiClients k st).2.
Proof.
  intros HN H0 Hk.
  rewrite (selections_round_robin geminiClients k st HN H0 Hk).
  split; [reflexivity|]. cbn [snd].
  apply Forall_fmap, Forall_forall. intros j _. cbn.
  eexists. split; [reflexivity|]. apply Z.mod_pos_bound. lia.
Qed.

Lemma round_robin_without_overflow_witness :
  main.selections sample.clients 4 (sample.state 10)
  = ({| main.currentClient := 10 + 4; main.metrics := [] |},
     (fun j => Returns ((10 + j) mod 3)) <$> seqZ 1 4)
  /\ Forall (fun o => exists i : Z, o = Returns i /\ 0 <= i < 3)
            (main.selections sample.clients 4 (sample.state 10)).2.
Proof.
  apply (round_robin_without_overflow sample.clients 4 (sample.state 10)).
  - split; reflexivity.
  - discriminate.
  - reflexivity.
Defined.

(** The witness of X14, [selections_counter]: every selection advances the counter
    by exactly one, a selection that panics included, so that after [k]
    selections the counter is [start + k] wrapped to 32 bits and [k]
    outcomes were produced: no increment is lost or repeated. *)
Lemma selections_counter_witness :
  main.currentClient (main.selections sample.clients 3 (sample.state 2147483646)).1
  = main.int32_wrap (2147483646 + 3)
  /\ length (main.selections sample.clients 3 (sample.state 2147483646)).2 = 3%nat.
Proof.
  apply (selections_counter sample.clients 3 (sample.state 2147483646)).
  split; [discriminate | reflexivity].
Defined.

Lemma mod_window_inj (c N x y : Z) :
  0 < N -> 1 <= x <= N -> 1 <= y <= N ->
  (c + x) mod N = (c + y) mod N -> x = y.
Proof.
  intros HN Hx Hy H.
  pose proof (Z.div_mod (c + x) N ltac:(lia)) as Ex.
  pose proof (Z.div_mod (c + y) N ltac:(lia)) as Ey.
  rewrite H in Ex.
  assert (x - y = N * ((c + x) / N - (c + y) / N)) as E by lia.
  assert ((c + x) / N - (c + y) / N = 0) by nia.
  lia.
Qed.

(** X15. The rotation is fair: while the counter does not overflow, any [N]
    consecutive selections over a pool of [N] clients return every index of
    the pool exactly once. *)
Theorem round_robin_is_fair
    (geminiClients : list genai.Client) (st : main.State) :
  0 < Z.of_nat (length geminiClients) < 2 ^ 31 ->
  0 <= main.currentClient st ->
  main.currentClient st + Z.of_nat (length geminiClients) < 2 ^ 31 ->
  exists indices : list Z,
    (main.selections geminiClients (length geminiClients) st).2
    = Returns <$> indices
    /\ indices ≡ₚ seqZ 0 (Z.of_nat (length geminiClients)).
Proof.
  intros HN H0 Hk.
  rewrite (selections_round_robin geminiClients _ st HN H0 Hk). cbn [snd].
  set (N := Z.of_nat (length geminiClients)) in *.
  exists ((fun j => (main.currentClient st + j) mod N) <$> seqZ 1 N).
  split; [by rewrite <- list_fmap_compose|].
  apply submseteq_length_Permutation.
  - apply NoDup_submseteq.
    + apply NoDup_fmap_2_strong; [|apply NoDup_seqZ].
      intros x y Hx Hy. apply elem_of_seqZ in Hx, Hy.
      apply mod_window_inj; lia.
    + intros i Hi. apply list_elem_of_fmap in Hi as (j & -> & _).
      apply elem_of_seqZ.
      pose proof (Z.mod_pos_bound (main.currentClient st + j) N ltac:(lia)). lia.
  - rewrite length_fmap, !length_seqZ. lia.
Qed.

Lemma round_robin_is_fair_witness :
  exists indices : list Z,
    (main.selections sample.clients 3 (sample.state 7)).2 = Returns <$> indices
    /\ indices ≡ₚ seqZ 0 3.
Proof.
  apply (round_robin_is_fair sample.clients (sample.state 7)).
  - split; reflexivity.
  - discriminate.
  - reflexivity.
Defined.

(** X16. With a single credential the selection returns that client, at
    index 0, from every counter value, negative ones included: a pool of
    one never panics in the rotation. *)
Theorem single_client_never_panics (client : genai.Client) (st : main.State) :
  main.nextClient [client] st
  = ({| main.currentClient := main.int32_wrap (main.currentClient st + 1);
        main.metrics := main.metrics st |},
     Returns (0, client)).
Proof.
  unfold main.nextClient, main.Add1.
  change (main.int32_wrap (Z.of_nat (length [client]))) with 1.
  unfold main.go_rem. cbn [Z.eqb].
  rewrite Z.rem_1_r. reflexivity.
Qed.

(** X17. For a pool of [N] clients ([0 < N < 2^31]) let [added] be the
    counter after the increment. The selection returns, and then the client
    at index [added mod N], exactly when [added] is not negative or is a
    multiple of [N]; otherwise the remainder is negative and indexing the
    pool panics. *)
Theorem selection_returns_iff
    (geminiClients : list genai.Client) (st : main.State) :
  0 < Z.of_nat (length geminiClients) < 2 ^ 31 ->
  let N := Z.of_nat (length geminiClients) in
  let added := main.int32_wrap (main.currentClient st + 1) in
  let st1 := {| main.currentClient := added; main.metrics := main.metrics st |} in
  (0 <= added \/ Z.rem added N = 0 ->
   exists client : genai.Client,
     geminiClients !! Z.to_nat (added mod N) = Some client
     /\ main.nextClient geminiClients st = (st1, Returns (added mod N, client)))
  /\ (added < 0 /\ Z.rem added N <> 0 ->
      main.nextClient geminiClients st
      = (st1, Panics "runtime error: index out of range")).
Proof.
  intros HN N added st1.
  assert (HN32 : main.int32_wrap N = N) by (apply int32_wrap_small; pow_lia).
  unfold main.nextClient, main.Add1, main.go_rem. fold N added. rewrite HN32.
  destruct (Z.eqb_spec N 0) as [?|_]; [lia|].
  split.
  - intros Hcase.
    assert (Hrem : Z.rem added N = added mod N).
    { destruct Hcase as [Hpos|Hzero]; [apply Z.rem_mod_nonneg; lia|].
      rewrite Hzero. symmetry. apply Z.rem_divide in Hzero; [|lia].
      apply Z.mod_divide; [lia | exact Hzero]. }
    pose proof (Z.mod_pos_bound added N ltac:(lia)) as Hidx.
    destruct (lookup_lt_is_Some_2 geminiClients (Z.to_nat (added mod N))
                ltac:(lia)) as [client Hclient].
    exists client. split; [exact Hclient|]. rewrite Hrem.
    by rewrite (index_lookup geminiClients _ client) by (split; [lia|exact Hclient]).
  - intros [Hneg Hnz].
    pose proof (Z.rem_nonpos added N ltac:(lia) ltac:(lia)) as Hle.
    rewrite index_out_of_range by lia. reflexivity.
Qed.

Lemma selection_returns_iff_witness :
  (0 <= main.int32_wrap (2147483647 + 1)
   \/ Z.rem (main.int32_wrap (2147483647 + 1)) 3 = 0 ->
   exists client : genai.Client,
     sample.clients !! Z.to_nat (main.int32_wrap (2147483647 + 1) mod 3) = Some client
     /\ main.nextClient sample.clients (sample.state 2147483647)
        = (sample.state (main.int32_wrap (2147483647 + 1)),
           Returns (main.int32_wrap (2147483647 + 1) mod 3, client)))
  /\ (main.int32_wrap (2147483647 + 1) < 0
      /\ Z.rem (main.int32_wrap (2147483647 + 1)) 3 <> 0 ->
      main.nextClient sample.clients (sample.state 2147483647)
      = (sample.state (main.int32_wrap (2147483647 + 1)),
         Panics "runtime error: index out of range")).
Proof.
  apply (selection_returns_iff sample.clients (sample.state 2147483647)).
  split; reflexivity.
Defined.

(** ** Start-up: the keys and the pool *)

Lemma strings_Split_cons (s : string) (sep : Ascii.ascii) :
  exists piece pieces, strings_Split s sep = piece :: pieces.
Proof.
  destruct s as [|ch rest]; cbn [strings_Split]; [eauto|].
  destruct (Ascii.eqb ch sep); [eauto|].
  destruct (strings_Split rest sep); eauto.
Qed.

Lemma strings_Join_cons (piece : string) (pieces : list string) (sep : Ascii.ascii) :
  pieces <> [] ->
  strings_Join (piece :: pieces) sep
  = piece ++ String.String sep (strings_Join pieces sep).
Proof. destruct pieces; [done | reflexivity]. Qed.

Lemma strings_Join_String (ch : Ascii.ascii) (piece : string)
    (pieces : list string) (sep : Ascii.ascii) :
  strings_Join (String.String ch piece :: pieces) sep
  = String.String ch (strings_Join (piece :: pieces) sep).
Proof. destruct pieces; reflexivity. Qed.

Lemma split_join_round_trip_length (s : string) (sep : Ascii.ascii) :
  length (strings_Split s sep) = S (strings_Count s sep).
Proof.
  induction s as [|ch rest IH]; [reflexivity|].
  cbn [strings_Split strings_Count].
  destruct (Ascii.eqb ch sep); [cbn [length]; by rewrite IH|].
  destruct (strings_Split rest sep); [discriminate | exact IH].
Qed.

(** X18. Splitting the key variable loses nothing and skips nothing:
    joining the pieces with the separator gives the value back, there is one
    piece more than there are separators (so at least one, and an empty
    piece for every leading, trailing or doubled separator), and no piece
    contains the separator. *)
Theorem split_join_round_trip (s : string) (sep : Ascii.ascii) :
  strings_Join (strings_Split s sep) sep = s
  /\ length (strings_Split s sep) = S (strings_Count s sep)
  /\ Forall (fun piece => strings_Count piece sep = O) (strings_Split s sep).
Proof.
  induction s as [|ch rest (IHjoin & IHlen & IHall)]; [by repeat constructor|].
  cbn [strings_Split strings_Count].
  destruct (Ascii.eqb_spec ch sep) as [->|Hne].
  - destruct (strings_Split_cons rest sep) as (piece & pieces & E).
    repeat split.
    + rewrite strings_Join_cons by (rewrite E; discriminate).
      by rewrite IHjoin.
    + cbn [length]. by rewrite IHlen.
    + by constructor.
  - destruct (strings_Split rest sep) as [|piece pieces] eqn:E;
      [discriminate|].
    repeat split.
    + by rewrite strings_Join_String, IHjoin.
    + exact IHlen.
    + inversion IHall as [|? ? Hpiece Hpieces]; subst. constructor; [|done].
      cbn [strings_Count]. destruct (Ascii.eqb_spec ch sep); [done|exact Hpiece].
Qed.

Lemma rangeKeys_Ok (NewClient : string -> result genai.Client) (keys : list string) :
  forall geminiClients clients : list genai.Client,
    startup.rangeKeys NewClient keys geminiClients = Ok clients
    <-> exists new : list genai.Client,
          clients = (geminiClients ++ new)%list
          /\ Forall2 (fun key client => NewClient key = Ok client) keys new.
Proof.
  induction keys as [|key keys IH]; intros acc clients; cbn [startup.rangeKeys].
  - split.
    + intros [= <-]. exists []. by rewrite app_nil_r.
    + intros (new & -> & Hnew). inversion Hnew. by rewrite app_nil_r.
  - destruct (NewClient key) as [client|e] eqn:Hkey.
    + rewrite IH. split.
      * intros (new & -> & Hnew). exists (client :: new).
        rewrite <- app_assoc. split; [reflexivity|]. by constructor.
      * intros (new & -> & Hnew).
        inversion Hnew as [|? client' ? new' Hc Hrest]; subst.
        rewrite Hkey in Hc. injection Hc as <-.
        exists new'. by rewrite <- app_assoc.
    + split; [discriminate|].
      intros (new & _ & Hnew). inversion Hnew as [|? ? ? ? Hc]; subst.
      rewrite Hkey in Hc. discriminate.
Qed.

Lemma rangeKeys_is_ok (NewClient : string -> result genai.Client) (keys : list string) :
  forall geminiClients : list genai.Client,
    is_ok (startup.rangeKeys NewClient keys geminiClients) = true
    <-> Forall (fun key => is_ok (NewClient key) = true) keys.
Proof.
  induction keys as [|key keys IH]; intros acc; cbn [startup.rangeKeys].
  - split; [constructor | reflexivity].
  - destruct (NewClient key) as [client|e] eqn:Hkey.
    + rewrite IH. split.
      * intros H. constructor; [by rewrite Hkey | exact H].
      * intros H. by inversion H.
    + split; [discriminate|]. intros H. inversion H as [|? ? Hk]; subst.
      rewrite Hkey in Hk. discriminate.
Qed.

(** X19. [main] comes to serve exactly when [GEMINI_API_KEY] is not empty
    and the SDK accepts every piece of it, empty pieces included; otherwise
    the process ends in [log.Fatal]: there is no partial pool. *)
Theorem startup_serves_iff
    (env : startup.Env) (NewClient : string -> result genai.Client) :
  (exists ListenAddr MetricsAddr geminiClients st,
      startup.main env NewClient
      = startup.Serving ListenAddr MetricsAddr geminiClients st)
  <-> startup.GEMINI_API_KEY env <> ""
      /\ Forall (fun key => is_ok (NewClient key) = true)
                (strings_Split (startup.GEMINI_API_KEY env) ";"%char).
Proof.
  unfold startup.main, startup.GeminiApiKeys, startup.GeminiApiKey.
  rewrite <- (rangeKeys_is_ok NewClient _ []).
  destruct (String.eqb_spec (startup.GEMINI_API_KEY env) "") as [Hempty|Hkey].
  { split; [by intros (? & ? & ? & ? & ?) | by intros [? _]]. }
  destruct (startup.rangeKeys NewClient _ []) as [clients|e].
  - split; [done|]. intros _. eauto.
  - split; [by intros (? & ? & ? & ? & ?) | by intros [_ ?]].
Qed.

(** X20. When [main] comes to serve, the pool holds one client per piece of
    [GEMINI_API_KEY], in the order of the pieces, each the one the SDK built
    from that piece; it has one client more than the value has semicolons,
    so it is never empty; the counter starts at 0 with nothing recorded,
    and the listen address is [LISTEN_ADDR], or [:8080] when that is
    empty. *)
Theorem startup_pool
    (env : startup.Env) (NewClient : string -> result genai.Client)
    (ListenAddr : string) (MetricsAddr : option string)
    (geminiClients : list genai.Client) (st : main.State) :
  startup.main env NewClient
  = startup.Serving ListenAddr MetricsAddr geminiClients st ->
  Forall2 (fun key client => NewClient key = Ok client)
          (strings_Split (startup.GEMINI_API_KEY env) ";"%char) geminiClients
  /\ length geminiClients
     = S (strings_Count (startup.GEMINI_API_KEY env) ";"%char)
  /\ st = {| main.currentClient := 0; main.metrics := [] |}
  /\ ListenAddr = (if String.eqb (startup.LISTEN_ADDR env) "" then ":8080"
                   else startup.LISTEN_ADDR env).
Proof.
  unfold startup.main, startup.GeminiApiKeys, startup.GeminiApiKey.
  destruct (String.eqb (startup.GEMINI_API_KEY env) ""); [discriminate|].
  destruct (startup.rangeKeys NewClient _ []) as [clients|e] eqn:Hrange;
    [|discriminate].
  intros [= <- _ <- <-].
  apply rangeKeys_Ok in Hrange as (new & -> & Hnew). cbn [app].
  repeat split; [exact Hnew|].
  rewrite <- (Forall2_length _ _ _ Hnew).
  apply split_join_round_trip_length.
Qed.

Lemma startup_pool_witness :
  Forall2 (fun key client => (fun k => Ok {| genai.APIKey := k |}) key = Ok client)
          (strings_Split "k1;k2;" ";"%char)
          [ {| genai.APIKey := "k1" |}; {| genai.APIKey := "k2" |};
            {| genai.APIKey := "" |} ]
  /\ length [ {| genai.APIKey := "k1" |}; {| genai.APIKey := "k2" |};
              {| genai.APIKey := "" |} ]
     = S (strings_Count "k1;k2;" ";"%char)
  /\ {| main.currentClient := 0; main.metrics := [] |}
     = {| main.currentClient := 0; main.metrics := [] |}
  /\ ":8080" = (if String.eqb "" "" then ":8080" else "").
Proof.
  exact (startup_pool
           {| startup.GEMINI_API_KEY := "k1;k2;";
              startup.LISTEN_ADDR := "";
              startup.METRICS_ADDR := "" |}
           (fun k => Ok {| genai.APIKey := k |})
           ":8080" None
           [ {| genai.APIKey := "k1" |}; {| genai.APIKey := "k2" |};
             {| genai.APIKey := "" |} ]
           {| main.currentClient := 0; main.metrics := [] |}
           eq_refl).
Defined.

(** X21. After a start-up that came to serve, with fewer than [2^31]
    clients: the models handler never panics, and the first [k] selections
    ([k < 2^31]) return the indices [1 mod N, 2 mod N, ..., k mod N], so the
    first request goes to the second client when there are several. *)
Theorem startup_then_rotation
    (env : startup.Env) (NewClient : string -> result genai.Client)
    (ListenAddr : string) (MetricsAddr : option string)
    (geminiClients : list genai.Client) (st : main.State) (k : nat) :
  startup.main env NewClient
  = startup.Serving ListenAddr MetricsAddr geminiClients st ->
  Z.of_nat (length geminiClients) < 2 ^ 31 ->
  Z.of_nat k < 2 ^ 31 ->
  (main.selections geminiClients k st).2
  = (fun j => Returns (j mod Z.of_nat (length geminiClients))) <$> seqZ 1 (Z.of_nat k)
  /\ (forall (ListModels : genai.Client -> list (result genai.ModelInfo))
             (r : main.Request) (st0 : main.State),
        exists resp : main.Response,
          (main.modelsHandler geminiClients ListModels r st0).2 = Returns resp).
Proof.
  intros Hmain HN Hk.
  assert (Hpool : length geminiClients
                  = S (strings_Count (startup.GEMINI_API_KEY env) ";"%char)
                  /\ st = {| main.currentClient := 0; main.metrics := [] |}).
  { revert Hmain.
    unfold startup.main, startup.GeminiApiKeys, startup.GeminiApiKey.
    destruct (String.eqb (startup.GEMINI_API_KEY env) ""); [discriminate|].
    destruct (startup.rangeKeys NewClient _ []) as [clients|e] eqn:Hrange;
      [|discriminate].
    intros [= _ _ <- <-]. split; [|reflexivity].
    apply rangeKeys_Ok in Hrange as (new & -> & Hnew). cbn [app].
    rewrite <- (Forall2_length _ _ _ Hnew).
    apply split_join_round_trip_length. }
  destruct Hpool as [Hlen ->]. split.
  - rewrite selections_round_robin by (cbn [main.currentClient]; lia).
    reflexivity.
  - intros ListModels r st0. unfold main.modelsHandler.
    destruct geminiClients as [|client clients]; [discriminate|].
    destruct (negb (String.eqb (main.Method r) "GET")); [eexists; reflexivity|].
    change (main.index (client :: clients) 0) with (Returns client). cbv iota.
    destruct (main.drain (ListModels client) []); eexists; reflexivity.
Qed.

Lemma startup_then_rotation_witness :
  (main.selections
     [ {| genai.APIKey := "k1" |}; {| genai.APIKey := "k2" |} ] 3
     {| main.currentClient := 0; main.metrics := [] |}).2
  = (fun j => Returns (j mod 2)) <$> seqZ 1 3
  /\ (forall (ListModels : genai.Client -> list (result genai.ModelInfo))
             (r : main.Request) (st0 : main.State),
        exists resp : main.Response,
          (main.modelsHandler
             [ {| genai.APIKey := "k1" |}; {| genai.APIKey := "k2" |} ]
             ListModels r st0).2 = Returns resp).
Proof.
  apply (startup_then_rotation
           {| startup.GEMINI_API_KEY := "k1;k2";
              startup.LISTEN_ADDR := ":9090";
              startup.METRICS_ADDR := ":9091" |}
           (fun k => Ok {| genai.APIKey := k |})
           ":9090" (Some ":9091")
           [ {| genai.APIKey := "k1" |}; {| genai.APIKey := "k2" |} ]
           {| main.currentClient := 0; main.metrics := [] |} 3).
  - reflexivity.
  - reflexivity.
  - reflexivity.
Defined.

(** ** The three revisions of the embeddings handler *)

Lemma nextClient_rev2 (geminiClients : list genai.Client) (st : main.State) :
  main_rev2.nextClient geminiClients (main.currentClient st)
  = ((main.nextClient geminiClients st).1.(main.currentClient),
     (main.nextClient geminiClients st).2).
Proof.
  unfold main_rev2.nextClient, main.nextClient, main.Add1.
  destruct (main.go_rem _ _) as [useIndex|msg]; [|reflexivity].
  destruct (main.index _ _); reflexivity.
Qed.

(** X22. The metrics revision changed no answer: whenever the current
    embeddings handler writes a response, the handler of the revision
    before it writes the same response and leaves the same counter. *)
Theorem answers_unchanged_by_metrics
    (geminiClients : list genai.Client)
    (BatchEmbedContents :
       genai.EmbeddingModel -> genai.EmbeddingBatch ->
       result genai.BatchEmbedContentsResponse)
    (r : main.Request) (st st' : main.State) (resp : main.Response) :
  main.embeddingsHandler geminiClients BatchEmbedContents r st
  = (st', Returns resp) ->
  main_rev2.embeddingsHandler geminiClients BatchEmbedContents r
    (main.currentClient st)
  = (main.currentClient st', Returns resp).
Proof.
  unfold main.embeddingsHandler, main_rev2.embeddingsHandler.
  destruct (negb (String.eqb (main.Method r) "POST")); [by intros [= <- <-]|].
  destruct (main.Body r) as [| |openAIReq]; try (by intros [= <- <-]).
  rewrite nextClient_rev2.
  destruct (main.nextClient geminiClients st) as [st1 [[useIndex client]|msg]];
    cbn [fst snd]; [|discriminate].
  destruct (openai.ConvertOpenAIRequestToGemini _ _); [|by intros [= <- <-]].
  destruct (BatchEmbedContents _ _); [|by intros [= <- <-]].
  destruct (main.must_slice _); [|discriminate].
  destruct (main.encodable _); by intros [= <- <-].
Qed.

Lemma answers_unchanged_by_metrics_witness :
  main_rev2.embeddingsHandler sample.clients sample.upstream
    (sample.post (sample.request (Slice [String "a"]) "base64")) 5
  = (6, Returns (main.httpError "Bad Request" 400)).
Proof.
  exact (answers_unchanged_by_metrics sample.clients sample.upstream
           (sample.post (sample.request (Slice [String "a"]) "base64"))
           (sample.state 5)
           (main.requestsTotalInc
              (sample.post (sample.request (Slice [String "a"]) "base64")) 400
              (sample.state 6))
           (main.httpError "Bad Request" 400) eq_refl).
Defined.

(** X23. What the metrics revision lost: when the current handler panics,
    either the selection panicked, and the revision before panics alike, or
    the input is a single string that was converted and embedded, and the
    revision before answers it with status 200 and the JSON content type. *)
Theorem panics_introduced_by_metrics
    (geminiClients : list genai.Client)
    (BatchEmbedContents :
       genai.EmbeddingModel -> genai.EmbeddingBatch ->
       result genai.BatchEmbedContentsResponse)
    (r : main.Request) (st st' : main.State) (msg : string) :
  main.embeddingsHandler geminiClients BatchEmbedContents r st
  = (st', Panics msg) ->
  main.nextClient geminiClients st = (st', Panics msg)
  /\ main_rev2.embeddingsHandler geminiClients BatchEmbedContents r
       (main.currentClient st)
     = (main.currentClient st', Panics msg)
  \/ exists (openAIReq : openai.EmbedRequest.t) (t : string)
            (resp : main.Response),
       main.Body r = main.Decoded openAIReq
       /\ openai.EmbedRequest.Input openAIReq = String t
       /\ main_rev2.embeddingsHandler geminiClients BatchEmbedContents r
            (main.currentClient st)
          = (main.currentClient st', Returns resp)
       /\ main.StatusCode resp = 200
       /\ main.ContentType resp = Some "application/json".
Proof.
  unfold main.embeddingsHandler, main_rev2.embeddingsHandler.
  destruct (negb (String.eqb (main.Method r) "POST")); [discriminate|].
  destruct (main.Body r) as [| |openAIReq]; try discriminate.
  rewrite nextClient_rev2.
  destruct (main.nextClient geminiClients st) as [st1 [[useIndex client]|msg1]];
    cbn [fst snd].
  2:{ intros [= <- <-]. by left. }
  rewrite ConvertOpenAIRequestToGemini_spec.
  destruct (openai.formatRejected openAIReq); [discriminate|].
  destruct (openai.EmbedRequest.Input openAIReq) as [| | |t|v|] eqn:Hinput;
    cbn [input_texts]; try discriminate.
  - destruct (BatchEmbedContents _ _); [|discriminate].
    intros [= <- _]. right. exists openAIReq, t. eexists.
    repeat split. exact Hinput.
  - destruct (slice_texts v); [|discriminate].
    destruct (BatchEmbedContents _ _); [|discriminate].
    cbn [main.must_slice assert_slice].
    destruct (main.encodable _); discriminate.
Qed.

Lemma panics_introduced_by_metrics_witness :
  main.nextClient sample.clients (sample.state 0)
  = (sample.state 1,
     Panics "interface conversion: interface {} is string, not []interface {}")
  /\ main_rev2.embeddingsHandler sample.clients sample.upstream
       (sample.post (sample.request (String "hello") "")) 0
     = (1, Panics "interface conversion: interface {} is string, not []interface {}")
  \/ exists (openAIReq : openai.EmbedRequest.t) (t : string)
            (resp : main.Response),
       main.Body (sample.post (sample.request (String "hello") ""))
       = main.Decoded openAIReq
       /\ openai.EmbedRequest.Input openAIReq = String t
       /\ main_rev2.embeddingsHandler sample.clients sample.upstream
            (sample.post (sample.request (String "hello") "")) 0
          = (1, Returns resp)
       /\ main.StatusCode resp = 200
       /\ main.ContentType resp = Some "application/json".
Proof.
  exact (panics_introduced_by_metrics sample.clients sample.upstream
           (sample.post (sample.request (String "hello") ""))
           (sample.state 0) (sample.state 1)
           "interface conversion: interface {} is string, not []interface {}"
           eq_refl).
Defined.

(** X24. With a single credential the pooled handler (the revision with the
    pool, before the metrics) is the first, unpooled handler: from every
    counter value it writes the response the first revision writes for that
    client, and never panics. *)
Theorem single_client_pool_is_unpooled
    (geminiClient : genai.Client)
    (BatchEmbedContents :
       genai.EmbeddingModel -> genai.EmbeddingBatch ->
       result genai.BatchEmbedContentsResponse)
    (r : main.Request) (currentClient : Z) :
  main_rev2.embeddingsHandler [geminiClient] BatchEmbedContents r currentClient
  = (if String.eqb (main.Method r) "POST" && is_decoded (main.Body r)
     then main.int32_wrap (currentClient + 1) else currentClient,
     Returns (main_rev1.embeddingsHandler geminiClient BatchEmbedContents r)).
Proof.
  unfold main_rev2.embeddingsHandler, main_rev1.embeddingsHandler.
  destruct (String.eqb (main.Method r) "POST"); cbn [negb andb]; [|reflexivity].
  destruct (main.Body r) as [| |openAIReq]; cbn [is_decoded]; try reflexivity.
  unfold main_rev2.nextClient.
  change (main.int32_wrap (Z.of_nat (length [geminiClient]))) with 1.
  unfold main.go_rem. cbn [Z.eqb]. rewrite Z.rem_1_r.
  change (main.index [geminiClient] 0) with (Returns geminiClient). cbv iota.
  destruct (openai.ConvertOpenAIRequestToGemini _ _); [|reflexivity].
  destruct (BatchEmbedContents _ _); reflexivity.
Qed.

(** ** What a client can be sent *)

(** X25. Whatever either handler writes is a 200, or one of three fixed
    error responses: 405, 400 or 500 with the text of the status as the
    whole body. The message of a conversion error or of an upstream error
    never reaches the client. *)
Theorem error_responses_are_generic
    (geminiClients : list genai.Client)
    (BatchEmbedContents :
       genai.EmbeddingModel -> genai.EmbeddingBatch ->
       result genai.BatchEmbedContentsResponse)
    (ListModels : genai.Client -> list (result genai.ModelInfo))
    (r : main.Request) (st st' : main.State) (resp : main.Response) :
  main.embeddingsHandler geminiClients BatchEmbedContents r st = (st', Returns resp)
  \/ main.modelsHandler geminiClients ListModels r st = (st', Returns resp) ->
  main.StatusCode resp = 200
  \/ resp = main.httpError "Method Not Allowed" 405
  \/ resp = main.httpError "Bad Request" 400
  \/ resp = main.httpError "Internal Server Error" 500.
Proof.
  intros [H|H]; revert H.
  - unfold main.embeddingsHandler.
    destruct (negb (String.eqb (main.Method r) "POST")); [intros [= _ <-]; auto|].
    destruct (main.Body r) as [| |openAIReq]; try (intros [= _ <-]; auto).
    destruct (main.nextClient geminiClients st) as [st1 [[useIndex client]|msg]];
      [|discriminate].
    destruct (openai.ConvertOpenAIRequestToGemini _ _); [|intros [= _ <-]; auto].
    destruct (BatchEmbedContents _ _); [|intros [= _ <-]; auto].
    destruct (main.must_slice _); [|discriminate].
    destruct (main.encodable _); intros [= _ <-]; auto.
  - unfold main.modelsHandler.
    destruct (negb (String.eqb (main.Method r) "GET")); [intros [= _ <-]; auto|].
    destruct (main.index geminiClients 0) as [client|msg]; [|discriminate].
    destruct (main.drain (ListModels client) []); intros [= _ <-]; auto.
Qed.

Lemma error_responses_are_generic_witness :
  main.StatusCode (main.httpError "Internal Server Error" 500) = 200
  \/ main.httpError "Internal Server Error" 500
     = main.httpError "Method Not Allowed" 405
  \/ main.httpError "Internal Server Error" 500 = main.httpError "Bad Request" 400
  \/ main.httpError "Internal Server Error" 500
     = main.httpError "Internal Server Error" 500.
Proof.
  apply (error_responses_are_generic sample.clients
           (fun _ _ => Err "API key not valid: key-b")
           sample.list_models
           (sample.post (sample.request (Slice [String "a"]) ""))
           (sample.state 0)
           (main.requestsTotalInc
              (sample.post (sample.request (Slice [String "a"]) "")) 500
              (sample.state 1))
           (main.httpError "Internal Server Error" 500)).
  left. reflexivity.
Defined.

(** X26. A request with the wrong method is answered with 405 by either
    handler before anything else is looked at: the body, the pool, the
    counter and the upstream play no part; the counter is left as it was
    and the request counter gets one observation, Method Not Allowed, under
    the path and the method of the request. *)
Theorem wrong_method_rejected
    (geminiClients : list genai.Client)
    (BatchEmbedContents :
       genai.EmbeddingModel -> genai.EmbeddingBatch ->
       result genai.BatchEmbedContentsResponse)
    (ListModels : genai.Client -> list (result genai.ModelInfo))
    (r : main.Request) (st : main.State) :
  (main.Method r <> "POST" ->
   (main.embeddingsHandler geminiClients BatchEmbedContents r st).2
   = Returns (main.httpError "Method Not Allowed" 405)
   /\ main.currentClient
        (main.embeddingsHandler geminiClients BatchEmbedContents r st).1
      = main.currentClient st
   /\ requests_total
        (main.metrics (main.embeddingsHandler geminiClients BatchEmbedContents r st).1)
      = (requests_total (main.metrics st)
         ++ [main.RequestsTotal (main.Path r) (main.Method r) "Method Not Allowed"])%list)
  /\ (main.Method r <> "GET" ->
      (main.modelsHandler geminiClients ListModels r st).2
      = Returns (main.httpError "Method Not Allowed" 405)
      /\ main.currentClient (main.modelsHandler geminiClients ListModels r st).1
         = main.currentClient st
      /\ requests_total
           (main.metrics (main.modelsHandler geminiClients ListModels r st).1)
         = (requests_total (main.metrics st)
            ++ [main.RequestsTotal (main.Path r) (main.Method r) "Method Not Allowed"])%list).
Proof.
  split; intros Hm.
  - unfold main.embeddingsHandler.
    destruct (String.eqb_spec (main.Method r) "POST"); [contradiction|].
    cbn [negb fst snd main.requestsTotalInc main.observe main.metrics
         main.currentClient].
    by rewrite requests_total_app.
  - unfold main.modelsHandler.
    destruct (String.eqb_spec (main.Method r) "GET"); [contradiction|].
    cbn [negb fst snd main.requestsTotalInc main.observe main.metrics
         main.currentClient].
    by rewrite requests_total_app.
Qed.

Lemma wrong_method_rejected_witness :
  ((main.embeddingsHandler [] sample.upstream
      {| main.Method := "PUT"; main.Path := "/v1/embeddings";
         main.Body := main.Malformed |}
      (sample.state 2147483647)).2
   = Returns (main.httpError "Method Not Allowed" 405)
   /\ main.currentClient
        (main.embeddingsHandler [] sample.upstream
           {| main.Method := "PUT"; main.Path := "/v1/embeddings";
              main.Body := main.Malformed |}
           (sample.state 2147483647)).1
      = 2147483647
   /\ requests_total
        (main.metrics
           (main.embeddingsHandler [] sample.upstream
              {| main.Method := "PUT"; main.Path := "/v1/embeddings";
                 main.Body := main.Malformed |}
              (sample.state 2147483647)).1)
      = [main.RequestsTotal "/v1/embeddings" "PUT" "Method Not Allowed"])
  /\ ((main.modelsHandler [] sample.list_models
         {| main.Method := "POST"; main.Path := "/v1/models";
            main.Body := main.Unreadable |}
         (sample.state 0)).2
      = Returns (main.httpError "Method Not Allowed" 405)
      /\ main.currentClient
           (main.modelsHandler [] sample.list_models
              {| main.Method := "POST"; main.Path := "/v1/models";
                 main.Body := main.Unreadable |}
              (sample.state 0)).1
         = 0
      /\ requests_total
           (main.metrics
              (main.modelsHandler [] sample.list_models
                 {| main.Method := "POST"; main.Path := "/v1/models";
                    main.Body := main.Unreadable |}
                 (sample.state 0)).1)
         = [main.RequestsTotal "/v1/models" "POST" "Method Not Allowed"]).
Proof.
  split.
  - apply (proj1 (wrong_method_rejected [] sample.upstream sample.list_models
                    {| main.Method := "PUT"; main.Path := "/v1/embeddings";
                       main.Body := main.Malformed |}
                    (sample.state 2147483647))).
    discriminate.
  - apply (proj2 (wrong_method_rejected [] sample.upstream sample.list_models
                    {| main.Method := "POST"; main.Path := "/v1/models";
                       main.Body := main.Unreadable |}
                    (sample.state 0))).
    discriminate.
Defined.

(** ** Rejections that the overflowed rotation pre-empts

    The handler selects the client (lines 492 to 495) before it converts
    the request (lines 497 to 508). Once the counter has wrapped, the
    selection of a pool of several clients panics, and a request that the
    conversion would reject with 400 is not answered at all. The three
    evaluations below are at the pool of three clients and the counter
    value [2147483647], the state after as many selections. *)

(** C6. The claim: a request whose [encoding_format] is present and not
    ["float"] fails the conversion with the unsupported-format error, and
    through the handler gets a 400. The conversion does fail so; but at the
    counter value [2147483647] the handler panics in the selection, before
    the conversion, and writes no response. *)
Theorem format_rejection_lost_at_counter_overflow :
  openai.ConvertOpenAIRequestToGemini
    (sample.request (String "hello") "base64") sample.model
  = Err "unsupported encoding format"
  /\ main.embeddingsHandler sample.clients sample.upstream
       (sample.post (sample.request (String "hello") "base64"))
       (sample.state 2147483647)
     = (sample.state (-2147483648), Panics "runtime error: index out of range")
  /\ main.embeddingsHandler sample.clients sample.upstream
       (sample.post (sample.request (String "hello") "base64"))
       (sample.state 0)
     = ({| main.currentClient := 1;
           main.metrics := [main.RequestsTotal "/v1/embeddings" "POST" "Bad Request"] |},
        Returns (main.httpError "Bad Request" 400)).
Proof. repeat split. Qed.

(** C7. The claim: an input that is neither a string nor a sequence fails
    the conversion with the unsupported-input-type error and the endpoint
    responds with 400. For the number 42 the conversion does fail so; but
    at the counter value [2147483647] the handler panics in the selection,
    before the conversion, and writes no response. *)
Theorem shape_rejection_lost_at_counter_overflow :
  openai.ConvertOpenAIRequestToGemini
    (sample.request (Float64 42%float) "") sample.model
  = Err "unsupported input type: float64"
  /\ main.embeddingsHandler sample.clients sample.upstream
       (sample.post (sample.request (Float64 42%float) ""))
       (sample.state 2147483647)
     = (sample.state (-2147483648), Panics "runtime error: index out of range")
  /\ main.embeddingsHandler sample.clients sample.upstream
       (sample.post (sample.request (Float64 42%float) ""))
       (sample.state 0)
     = ({| main.currentClient := 1;
           main.metrics := [main.RequestsTotal "/v1/embeddings" "POST" "Bad Request"] |},
        Returns (main.httpError "Bad Request" 400)).
Proof. repeat split. Qed.

(** C10. The claim: a body without input, [{"model": "m"}], is rejected by
    the conversion with the unsupported-input-type error and yields a 400.
    The conversion does reject it, for [<nil>]; but at the counter value
    [2147483647] the handler panics in the selection, before the
    conversion, and writes no response. *)
Theorem nil_rejection_lost_at_counter_overflow :
  openai.ConvertOpenAIRequestToGemini
    {| openai.EmbedRequest.Input := Nil;
       openai.EmbedRequest.Model := "m";
       openai.EmbedRequest.EncodingFormat := "";
       openai.EmbedRequest.Dimensions := 0;
       openai.EmbedRequest.User := "" |}
    sample.model
  = Err "unsupported input type: <nil>"
  /\ main.embeddingsHandler sample.clients sample.upstream
       {| main.Method := "POST";
          main.Path := "/v1/embeddings";
          main.Body :=
            main.Decoded
              {| openai.EmbedRequest.Input := Nil;
                 openai.EmbedRequest.Model := "m";
                 openai.EmbedRequest.EncodingFormat := "";
                 openai.EmbedRequest.Dimensions := 0;
                 openai.EmbedRequest.User := "" |} |}
       (sample.state 2147483647)
     = (sample.state (-2147483648), Panics "runtime error: index out of range")
  /\ main.embeddingsHandler sample.clients sample.upstream
       {| main.Method := "POST";
          main.Path := "/v1/embeddings";
          main.Body :=
            main.Decoded
              {| openai.EmbedRequest.Input := Nil;
                 openai.EmbedRequest.Model := "m";
                 openai.EmbedRequest.EncodingFormat := "";
                 openai.EmbedRequest.Dimensions := 0;
                 openai.EmbedRequest.User := "" |} |}
       (sample.state 0)
     = ({| main.currentClient := 1;
           main.metrics := [main.RequestsTotal "/v1/embeddings" "POST" "Bad Request"] |},
        Returns (main.httpError "Bad Request" 400)).
Proof. repeat split. Qed.
